(** * XyPCLI: the concurrent package installer of [modules/project.go]

    A shallow embedding of the dependency installer of the XyPriss CLI:
    the command built for one package, the diagnostic extracted from a
    failed subprocess, the selection of the backend (bun or npm), and the
    goroutines of one installation batch (permit pool, [npmMutex], result
    channel, collection loop) as an interleaving transition system.

    Go strings are byte sequences: they are modelled by [string], whose
    characters are the bytes. *)

From Stdlib Require Import String Ascii List Bool Arith Lia ZArith Permutation.
From stdpp Require Import base list.
Import ListNotations.

Local Open Scope string_scope.
Local Open Scope nat_scope.
Local Open Scope list_scope.

(** ** The [strings] package of the Go standard library *)

(** [strings.TrimSpace] and [strings.ToLower] are Unicode aware.  They are
    not code of this repository: the development is parametric in them.
    [asciiStrings] below gives the instance that agrees with Go on ASCII
    text; it is used to evaluate the definitions on concrete inputs. *)
Class StringsPkg := {
  TrimSpace : string -> string;
  ToLower : string -> string
}.

(** [strings.Contains(s, substr)]: [substr] occurs in [s] (bytewise). *)
Fixpoint Contains (s substr : string) : bool :=
  String.prefix substr s ||
  match s with
  | EmptyString => false
  | String _ s' => Contains s' substr
  end.

(** [strings.HasPrefix(s, prefix)]. *)
Definition HasPrefix (s prefix : string) : bool := String.prefix prefix s.

(** [strings.TrimPrefix(s, prefix)]. *)
Definition TrimPrefix (s prefix : string) : string :=
  if HasPrefix s prefix
  then String.substring (String.length prefix)
                        (String.length s - String.length prefix) s
  else s.

Definition newline : ascii := "010"%char.

(** [strings.Split(s, sep)] for a separator [sep] of one byte (every call
    of the installer splits on a line feed).  The result is never empty:
    [Split "" sep = [""]]. *)
Fixpoint Split (s : string) (sep : ascii) : list string :=
  match s with
  | EmptyString => [EmptyString]
  | String c s' =>
      if Ascii.eqb c sep then EmptyString :: Split s' sep
      else match Split s' sep with
           | piece :: pieces => String c piece :: pieces
           | [] => [String c EmptyString]
           end
  end.

(** [s != ""]. *)
Definition nonEmpty (s : string) : bool := negb (String.eqb s "").

(** *** The ASCII instance *)

(** The bytes of Go's [asciiSpace] table: tab, line feed, vertical tab,
    form feed, carriage return and space. *)
Definition asciiSpace (c : ascii) : bool :=
  let n := nat_of_ascii c in
  ((9 <=? n) && (n <=? 13)) || (n =? 32).

Fixpoint trimLeft (s : string) : string :=
  match s with
  | EmptyString => EmptyString
  | String c s' => if asciiSpace c then trimLeft s' else s
  end.

Fixpoint trimRight (s : string) : string :=
  match s with
  | EmptyString => EmptyString
  | String c s' =>
      match trimRight s' with
      | EmptyString => if asciiSpace c then EmptyString else String c EmptyString
      | t => String c t
      end
  end.

Definition lowerByte (c : ascii) : ascii :=
  let n := nat_of_ascii c in
  if (65 <=? n) && (n <=? 90) then ascii_of_nat (n + 32) else c.

Fixpoint lowerBytes (s : string) : string :=
  match s with
  | EmptyString => EmptyString
  | String c s' => String (lowerByte c) (lowerBytes s')
  end.

Definition asciiStrings : StringsPkg :=
  {| TrimSpace := fun s => trimRight (trimLeft s);
     ToLower := lowerBytes |}.

(** ** Commands *)

(** Where the output of a subprocess goes: a buffer of the caller
    ([bytes.Buffer]) or [ioutil.Discard]. *)
Inductive sink := Buffer | Discard.

(** [exec.Cmd] as the installer uses it: the program and its arguments,
    the working directory, and the two output streams. *)
Record Cmd := {
  Path : string;
  Args : list string;
  Dir : string;
  Stdout : sink;
  Stderr : sink
}.

(** [exec.Command(name, arg...)] followed by [cmd.Dir = dir]. *)
Definition Command (name : string) (args : list string) (dir : string)
    (out err : sink) : Cmd :=
  {| Path := name; Args := args; Dir := dir; Stdout := out; Stderr := err |}.

(** The command line as the operating system sees it. *)
Definition argv (c : Cmd) : list string := Path c :: Args c.

(** The command that [installPackageParallel] builds (lines 266-276 and
    292-295): the function has no parameter that tells a development
    dependency from a regular one. *)
Definition installPackageParallel_cmd
    (projectDir packageName : string) (useBun : bool) : Cmd :=
  if useBun && String.eqb packageName "nquickdev" then
    Command "npm" ["install"; packageName] projectDir Buffer Buffer
  else if useBun then
    Command "bun" ["add"; packageName] projectDir Buffer Buffer
  else
    Command "npm" ["install"; packageName] projectDir Buffer Buffer.

(** The command that [installSingleDependency] builds (lines 770-792 and
    806-815). *)
Definition installSingleDependency_cmd
    (projectName dep : string) (isDev useBun : bool) : Cmd :=
  let out := if useBun then Buffer else Discard in
  if useBun && String.eqb dep "nquickdev" then
    if isDev then Command "npm" ["install"; "--save-dev"; dep] projectName out Buffer
    else Command "npm" ["install"; dep] projectName out Buffer
  else if useBun then
    if isDev then Command "bun" ["add"; "-d"; dep] projectName out Buffer
    else Command "bun" ["add"; dep] projectName out Buffer
  else
    if isDev then Command "npm" ["install"; "--save-dev"; dep] projectName out Buffer
    else Command "npm" ["install"; dep] projectName out Buffer.

(** [installBun] runs this command (lines 759-761). *)
Definition installBun_cmd : Cmd :=
  Command "npm" ["install"; "-g"; "bun"] "" Discard Discard.

(** ** The diagnostic of a failed install *)

Section Diagnostic.
Context `{StringsPkg}.

(** The condition of lines 315-321 on a trimmed line. *)
Definition isErrorLine (line : string) : bool :=
  (Contains line "ERR!" ||
   Contains line "error" ||
   Contains line "404" ||
   Contains line "ENOENT" ||
   Contains line "ENOTEMPTY" ||
   Contains line "code") &&
  negb (Contains (ToLower line) "warn").

(** The loop of lines 310-325, [errorLines] being the slice built so far. *)
Fixpoint collectErrorLines (lines errorLines : list string) : list string :=
  match lines with
  | [] => errorLines
  | line :: rest =>
      let line := TrimSpace line in
      if nonEmpty line then
        if isErrorLine line
        then collectErrorLines rest (errorLines ++ [line])
        else collectErrorLines rest errorLines
      else collectErrorLines rest errorLines
  end.

(** The fallback loop of lines 330-335. *)
Fixpoint firstStderrLines (lines errorLines : list string) : list string :=
  match lines with
  | [] => errorLines
  | line :: rest =>
      let line := TrimSpace line in
      if nonEmpty line && (length errorLines <? 3)
      then firstStderrLines rest (errorLines ++ [line])
      else firstStderrLines rest errorLines
  end.

Definition maxLines : nat := 5.

(** Lines 307-342: the lines shown for a non-empty [errOutput]. *)
Definition errorLinesOf (errOutput : string) : list string :=
  let lines := Split errOutput newline in
  let errorLines := collectErrorLines lines [] in
  let errorLines :=
    if (length errorLines =? 0) && nonEmpty errOutput
    then firstStderrLines (Split errOutput newline) errorLines
    else errorLines in
  if maxLines <? length errorLines then firstn maxLines errorLines
  else errorLines.

(** Lines 304-347: nothing is extracted from an empty [stderr]. *)
Definition diagnostic (errOutput : string) : list string :=
  if nonEmpty errOutput then errorLinesOf errOutput else [].

(** The diagnostic in the words of the specification: the trimmed,
    non-empty lines of [stderr] in their order ... *)
Definition trimmedLines (errOutput : string) : list string :=
  List.filter nonEmpty (map TrimSpace (Split errOutput newline)).

(** ... of which those with a marker and without "warn" are kept, or
    else the first three; at most five lines remain. *)
Definition spec_diagnostic (errOutput : string) : list string :=
  let matching := List.filter isErrorLine (trimmedLines errOutput) in
  firstn 5 (match matching with
            | [] => firstn 3 (trimmedLines errOutput)
            | _ :: _ => matching
            end).

End Diagnostic.

(** ** What the installer prints *)

(** A message records what a printed line says; colours and the
    characters that draw the tree are left out, and so are the lines made
    of them alone.  [current] and [total] are the numbers of the progress
    indicator "[current/total]". *)
Inductive message :=
| MsgInstallingDependencies
| MsgInstallingPackages (n : nat)
| MsgNoPackageJson
| MsgNotAProjectDirectory
| MsgConfigNotRead
| MsgUsingBun (forced : bool)
| MsgBunNotFoundUsingNpm
| MsgBunNotFoundFallingBack
| MsgUsingNpmForced
| MsgNpmNotInstalled
| MsgBunNotFoundInstalling
| MsgBunInstalled
| MsgFallingBackToNpm
| MsgParallelEnabled
| MsgPackages (n : nat)
| MsgDependencies (n : nat)
| MsgDevDependencies (n : nat)
| MsgInstalling (current total : nat) (packageName : string)
| MsgInstalled (current total : nat) (packageName : string)
| MsgInstallFailed (current total : nat) (packageName : string)
| MsgErrLine (errLine : string)
| MsgPackageNotFound
| MsgStrictModeFailure
| MsgFailedPackage (label : string)
| MsgCompletedWithWarnings
| MsgFailedCount (failed total : nat)
| MsgFailedDep (dep : string)
| MsgAllInstalled
| MsgInstalledCount (installed total : nat).

(** ** Sequential code: the environment and its effects *)

(** [os.Stat] as the installer reads its error: no error, an error for
    which [os.IsNotExist] holds, or another error. *)
Inductive statResult := StatOk | ErrNotExist | ErrOther.

(** What a finished subprocess leaves: whether [cmd.Run] returned a nil
    error, and the bytes written to standard error. *)
Record finished := {
  errNil : bool;
  stderrBytes : string
}.

(** The environment of a sequential run. *)
Record world := {
  osStat : string -> statResult;
  readFile : string -> option string;
  onPath : string -> bool;
  runs : Cmd -> finished
}.

Inductive action :=
| Print (m : message)
| Stat (name : string)
| ReadFile (name : string)
| Remove (name : string)
| LookPath (file : string)
| Run (c : Cmd).

(** How a piece of code ends: it goes on with a value, the function
    returns, or the process exits ([os.Exit]). *)
Inductive flow (A : Type) :=
| Value (a : A)
| Return
| Exit (code : Z).
Arguments Value {A} a.
Arguments Return {A}.
Arguments Exit {A} code.

(** A computation reads the environment, and yields the actions it
    performed, in order, and how it ended. *)
Definition io (A : Type) : Type := world -> list action * flow A.

Definition ret {A} (a : A) : io A := fun _ => ([], Value a).

Definition bind {A B} (m : io A) (k : A -> io B) : io B :=
  fun w =>
    match m w with
    | (acts, Value a) => let (acts', r) := k a w in (acts ++ acts', r)
    | (acts, Return) => (acts, Return)
    | (acts, Exit code) => (acts, Exit code)
    end.

Notation "x <- m ;; k" := (bind m (fun x => k))
  (at level 100, m at next level, right associativity).
Notation "m ;;; k" := (bind m (fun _ => k))
  (at level 100, right associativity).

Definition print (m : message) : io unit := fun _ => ([Print m], Value tt).
Definition stat (name : string) : io statResult :=
  fun w => ([Stat name], Value (osStat w name)).
Definition lookPath (file : string) : io bool :=
  fun w => ([LookPath file], Value (onPath w file)).
Definition runCmd (c : Cmd) : io finished :=
  fun w => ([Run c], Value (runs w c)).
Definition ioReadFile (name : string) : io (option string) :=
  fun w => ([ReadFile name], Value (readFile w name)).
Definition osRemove (name : string) : io unit :=
  fun _ => ([Remove name], Value tt).
Definition returnNow {A} : io A := fun _ => ([], Return).

(** ** One installation batch *)

(** What the entry points hand to the goroutines: the directory, the
    backend, the strict flag and the two groups of packages.
    [InstallPackages] has a single group and no strict mode. *)
Record batch := {
  projectDir : string;
  useBun : bool;
  strict : bool;
  deps : list string;
  devDeps : list string
}.

Definition totalDeps (b : batch) : nat := length (deps b) + length (devDeps b).

(** Lines 217-220 and 679-682. *)
Definition maxConcurrent (b : batch) : nat :=
  if totalDeps b <? 4 then totalDeps b else 4.

(** The arguments of one goroutine: [index] and [packageName] of the
    closure, the [isDev] it writes into its result and the [current] it
    passes to [installPackageParallel]. *)
Record task := {
  t_packageName : string;
  t_isDev : bool;
  t_index : nat;
  t_current : nat
}.

(** The goroutines started by lines 688-716 (and 226-234), in the order
    of the two [range] loops. *)
Definition tasks (b : batch) : list task :=
  imap (fun i dep => {| t_packageName := dep; t_isDev := false;
                        t_index := i; t_current := i + 1 |}) (deps b) ++
  imap (fun i dep => {| t_packageName := dep; t_isDev := true; t_index := i;
                        t_current := length (deps b) + i + 1 |}) (devDeps b).

(** The command of a task: [isDev] is not passed on. *)
Definition taskCmd (b : batch) (t : task) : Cmd :=
  installPackageParallel_cmd (projectDir b) (t_packageName t) (useBun b).

(** The element type of the [results] channel. *)
Record installResult := {
  packageName : string;
  success : bool;
  isDev : bool;
  index : nat
}.

Definition resultOf (t : task) (ok : bool) : installResult :=
  {| packageName := t_packageName t; success := ok;
     isDev := t_isDev t; index := t_index t |}.

(** Lines 723-727: the entry added to [failedDeps]. *)
Definition failedLabel (result : installResult) : string :=
  let devLabel := if isDev result then " (dev)" else "" in
  String.append (packageName result) devLabel.

(** Lines 299-353 of [installPackageParallel]: what is printed once
    [cmd.Run] has returned, and the boolean returned. *)
Definition installPackageParallel_report `{StringsPkg}
    (packageName : string) (current total : nat) (r : finished)
    : list message * bool :=
  if errNil r then ([MsgInstalled current total packageName], true)
  else (MsgInstallFailed current total packageName ::
          map MsgErrLine (diagnostic (stderrBytes r)), false).

(** Lines 739-754 (and 246-261): the final summary. *)
Definition summary (failedDeps : list string) (total : nat) : list message :=
  if 0 <? length failedDeps then
    MsgCompletedWithWarnings :: MsgFailedCount (length failedDeps) total ::
      map MsgFailedDep failedDeps
  else [MsgAllInstalled; MsgInstalledCount total total].

(** ** The entry points up to the start of the goroutines *)

(** The constants [ColorDim] and [ColorReset] of the package. *)
Definition ColorReset : string := String (ascii_of_nat 27) "[0m".
Definition ColorDim : string := String (ascii_of_nat 27) "[2m".

(** [filepath.Join(dir, elem)] for a plain directory name and the
    separator of Unix. *)
Definition Join (dir elem : string) : string :=
  if nonEmpty dir then String.append dir (String.append "/" elem) else elem.

(** [installBun] (lines 758-765). *)
Definition installBun : io bool :=
  r <- runCmd installBun_cmd ;;
  ret (errNil r).

(** Lines 124-127 and their copies: npm must be on the search path, or
    the function returns. *)
Definition requireNpm : io bool :=
  npm <- lookPath "npm" ;;
  if npm then ret false
  else (print MsgNpmNotInstalled ;;; returnNow).

(** [installSingleDependency] (lines 768-853); the result is the new
    value of [*failedDeps].  The spinner and the lines of
    [displayBunDetails] are not recorded. *)
Definition installSingleDependency
    (projectName dep : string) (isDev useBun : bool) (current total : nat)
    (failedDeps : list string) : io (list string) :=
  r <- runCmd (installSingleDependency_cmd projectName dep isDev useBun) ;;
  let devLabel :=
    if isDev
    then String.append " " (String.append ColorDim (String.append "(dev)" ColorReset))
    else "" in
  if errNil r then
    (print (MsgInstalled current total dep) ;;; ret failedDeps)
  else
    (print (MsgInstallFailed current total dep) ;;;
     (if negb useBun &&
         (Contains (stderrBytes r) "404" || Contains (stderrBytes r) "Not Found")
      then print MsgPackageNotFound else ret tt) ;;;
     ret (failedDeps ++ [String.append dep devLabel])).

(** [InstallPackage] (lines 106-151); the result is [failedDeps]. *)
Definition InstallPackage (packageName : string) : io (list string) :=
  print MsgInstallingDependencies ;;;
  st <- stat "package.json" ;;
  match st with
  | ErrNotExist =>
      (print MsgNoPackageJson ;;; print MsgNotAProjectDirectory ;;; returnNow)
  | _ =>
      (bun <- lookPath "bun" ;;
       useBun <- (if bun then (print (MsgUsingBun false) ;;; ret true)
                  else (print MsgBunNotFoundUsingNpm ;;; requireNpm)) ;;
       print (MsgPackages 1) ;;;
       failedDeps <- installSingleDependency "." packageName false useBun 1 1 [] ;;
       fold_right (fun m k => print m ;;; k) (ret failedDeps) (summary failedDeps 1))
  end.

(** [InstallPackages] (lines 154-262) up to the start of its goroutines;
    the result is the batch they run. *)
Definition InstallPackages (packages : list string) (mode : string) : io batch :=
  print (MsgInstallingPackages (length packages)) ;;;
  st <- stat "package.json" ;;
  match st with
  | ErrNotExist =>
      (print MsgNoPackageJson ;;; print MsgNotAProjectDirectory ;;; returnNow)
  | _ =>
      (useBun <-
         (if String.eqb mode "b" then
            (bun <- lookPath "bun" ;;
             if bun then (print (MsgUsingBun true) ;;; ret true)
             else (print MsgBunNotFoundFallingBack ;;; requireNpm))
          else if String.eqb mode "n" then
            (print MsgUsingNpmForced ;;; requireNpm)
          else
            (bun <- lookPath "bun" ;;
             if bun then (print (MsgUsingBun false) ;;; ret true)
             else (print MsgBunNotFoundUsingNpm ;;; requireNpm))) ;;
       print MsgParallelEnabled ;;;
       print (MsgPackages (length packages)) ;;;
       ret {| projectDir := "."; useBun := useBun; strict := false;
              deps := packages; devDeps := [] |})
  end.

Section Config.
Context `{StringsPkg}.

(** The loop of lines 595-615 over the lines of [.config]. *)
Fixpoint parseConfig (lines : list string) (inDeps inDevDeps : bool)
    (deps devDeps : list string) : list string * list string :=
  match lines with
  | [] => (deps, devDeps)
  | line :: rest =>
      let line := TrimSpace line in
      if HasPrefix line "Deps:" then parseConfig rest true false deps devDeps
      else if HasPrefix line "DevDeps:" then parseConfig rest false true deps devDeps
      else if HasPrefix line "- " then
        let dep := TrimPrefix line "- " in
        if inDeps then parseConfig rest inDeps inDevDeps (deps ++ [dep]) devDeps
        else if inDevDeps then parseConfig rest inDeps inDevDeps deps (devDeps ++ [dep])
        else parseConfig rest inDeps inDevDeps deps devDeps
      else parseConfig rest inDeps inDevDeps deps devDeps
  end.

(** The selection of the backend in [installDependencies] (lines
    620-661): the value of [useBun], or a return when npm is needed and
    not found. *)
Definition selectBackend (mode : string) : io bool :=
  if String.eqb mode "b" then
    (bun <- lookPath "bun" ;;
     if bun then (print (MsgUsingBun true) ;;; ret true)
     else (print MsgBunNotFoundFallingBack ;;; requireNpm))
  else if String.eqb mode "n" then
    (print MsgUsingNpmForced ;;; requireNpm)
  else
    (bun <- lookPath "bun" ;;
     if bun then (print (MsgUsingBun false) ;;; ret true)
     else
       (print MsgBunNotFoundInstalling ;;;
        installed <- installBun ;;
        if installed then (print MsgBunInstalled ;;; ret true)
        else (print MsgFallingBackToNpm ;;; requireNpm))).

(** [installDependencies] (lines 580-755) up to the start of its
    goroutines.  The two headers are printed here, ahead of every line of
    a goroutine. *)
Definition installDependencies (projectName language mode : string)
    (strict : bool) : io batch :=
  let configPath := Join projectName ".config" in
  data <- ioReadFile configPath ;;
  match data with
  | None => (print MsgConfigNotRead ;;; returnNow)
  | Some data =>
      let (deps, devDeps) := parseConfig (Split data newline) false false [] [] in
      (osRemove configPath ;;;
       useBun <- selectBackend mode ;;
       print MsgParallelEnabled ;;;
       (if 0 <? length deps then print (MsgDependencies (length deps)) else ret tt) ;;;
       (if 0 <? length devDeps then print (MsgDevDependencies (length devDeps)) else ret tt) ;;;
       ret {| projectDir := projectName; useBun := useBun; strict := strict;
              deps := deps; devDeps := devDeps |})
  end.

End Config.

(** ** The goroutines of a batch *)

(** Where a goroutine stands.  [ok] is the boolean that
    [installPackageParallel] returns. *)
Inductive pc :=
| AtSemaphore              (* at [semaphore <- struct{}{}] *)
| AtMutex                  (* holds a permit; at [if !useBun { npmMutex.Lock() }] *)
| InRun                    (* [cmd.Run()] is in flight *)
| AfterRun (ok : bool)     (* [cmd.Run()] has returned; before the deferred [Unlock] *)
| AtSend (ok : bool)       (* at [results <- installResult{...}] *)
| AtRelease (ok : bool)    (* at the deferred [<-semaphore] *)
| Finished (ok : bool).

Record goroutine := {
  args : task;
  at_ : pc
}.

(** The goroutine that runs the collection loop (lines 718-737), then
    the summary; [os.Exit] ends the process. *)
Inductive collector :=
| Collecting (completed : nat) (failedDeps : list string)
| Summarized (failedDeps : list string)
| Exited (code : Z).

(** The state of a batch: the goroutines, the number of permits taken
    ([len(semaphore)]), whether [npmMutex] is locked, the buffer of the
    [results] channel, the collecting goroutine, and what has been
    printed.  [received] is the history of the values taken from
    [results]; the program does not read it. *)
Record state := {
  goroutines : list goroutine;
  semaphore : nat;
  npmMutex : bool;
  results : list installResult;
  main : collector;
  output : list message;
  received : list installResult
}.

(** One atomic step of one goroutine; [i] numbers the goroutines in the
    order of [tasks]. *)
Inductive event :=
| Acquire (i : nat)
| Start (i : nat)
| Wait (i : nat)
| Unlock (i : nat)
| Send (i : nat)
| Release (i : nat)
| Receive
| Summary.

Definition init (b : batch) : state :=
  {| goroutines := map (fun t => {| args := t; at_ := AtSemaphore |}) (tasks b);
     semaphore := 0;
     npmMutex := false;
     results := [];
     main := Collecting 0 [];
     output := [];
     received := [] |}.

Definition moveTo (i : nat) (g : goroutine) (p : pc) (s : state)
    : list goroutine :=
  <[i := {| args := args g; at_ := p |}]> (goroutines s).

Section Batch.
Context `{StringsPkg}.
Variable b : batch.

(** How the subprocess of each goroutine ends: the environment decides,
    and every property below holds whatever it decides. *)
Variable outcome : nat -> finished.

(** A step of goroutine [i]; [None] when the goroutine is not at that
    statement, or is blocked there. *)
Definition stepWorker (i : nat) (g : goroutine) (e : event) (s : state)
    : option state :=
  match e, at_ g with
  | Acquire _, AtSemaphore =>
      (* the send blocks while the buffer of [semaphore] is full *)
      if semaphore s <? maxConcurrent b then
        Some {| goroutines := moveTo i g AtMutex s;
                semaphore := S (semaphore s);
                npmMutex := npmMutex s;
                results := results s;
                main := main s;
                output := output s ++
                  [MsgInstalling (t_current (args g)) (totalDeps b)
                                 (t_packageName (args g))];
                received := received s |}
      else None
  | Start _, AtMutex =>
      if useBun b then
        Some {| goroutines := moveTo i g InRun s;
                semaphore := semaphore s;
                npmMutex := npmMutex s;
                results := results s;
                main := main s;
                output := output s;
                received := received s |}
      else if npmMutex s then None
      else
        Some {| goroutines := moveTo i g InRun s;
                semaphore := semaphore s;
                npmMutex := true;
                results := results s;
                main := main s;
                output := output s;
                received := received s |}
  | Wait _, InRun =>
      let (lines, ok) :=
        installPackageParallel_report (t_packageName (args g))
          (t_current (args g)) (totalDeps b) (outcome i) in
      Some {| goroutines := moveTo i g (AfterRun ok) s;
              semaphore := semaphore s;
              npmMutex := npmMutex s;
              results := results s;
              main := main s;
              output := output s ++ lines;
              received := received s |}
  | Unlock _, AfterRun ok =>
      Some {| goroutines := moveTo i g (AtSend ok) s;
              semaphore := semaphore s;
              npmMutex := if useBun b then npmMutex s else false;
              results := results s;
              main := main s;
              output := output s;
              received := received s |}
  | Send _, AtSend ok =>
      (* the send blocks while the buffer of [results] is full *)
      if length (results s) <? totalDeps b then
        Some {| goroutines := moveTo i g (AtRelease ok) s;
                semaphore := semaphore s;
                npmMutex := npmMutex s;
                results := results s ++ [resultOf (args g) ok];
                main := main s;
                output := output s;
                received := received s |}
      else None
  | Release _, AtRelease ok =>
      match semaphore s with
      | S n =>
          Some {| goroutines := moveTo i g (Finished ok) s;
                  semaphore := n;
                  npmMutex := npmMutex s;
                  results := results s;
                  main := main s;
                  output := output s;
                  received := received s |}
      | 0 => None
      end
  | _, _ => None
  end.

(** The body of the collection loop for one received [result]. *)
Definition collect (result : installResult) (completed : nat)
    (failedDeps : list string) (s : state) : state :=
  if success result then
    {| goroutines := goroutines s; semaphore := semaphore s;
       npmMutex := npmMutex s; results := tail (results s);
       main := Collecting (S completed) failedDeps;
       output := output s;
       received := received s ++ [result] |}
  else
    let failedDeps := failedDeps ++ [failedLabel result] in
    if strict b then
      {| goroutines := goroutines s; semaphore := semaphore s;
         npmMutex := npmMutex s; results := tail (results s);
         main := Exited 1;
         output := output s ++
           [MsgStrictModeFailure; MsgFailedPackage (failedLabel result)];
         received := received s ++ [result] |}
    else
      {| goroutines := goroutines s; semaphore := semaphore s;
         npmMutex := npmMutex s; results := tail (results s);
         main := Collecting (S completed) failedDeps;
         output := output s;
         received := received s ++ [result] |}.

(** A step of the collecting goroutine. *)
Definition stepMain (e : event) (s : state) : option state :=
  match e, main s with
  | Receive, Collecting completed failedDeps =>
      if completed <? totalDeps b then
        match results s with
        | result :: _ => Some (collect result completed failedDeps s)
        | [] => None        (* the receive blocks on an empty channel *)
        end
      else None
  | Summary, Collecting completed failedDeps =>
      if completed <? totalDeps b then None
      else
        Some {| goroutines := goroutines s; semaphore := semaphore s;
                npmMutex := npmMutex s; results := results s;
                main := Summarized failedDeps;
                output := output s ++ summary failedDeps (totalDeps b);
                received := received s |}
  | _, _ => None
  end.

Definition worker (e : event) : option nat :=
  match e with
  | Acquire i | Start i | Wait i | Unlock i | Send i | Release i => Some i
  | Receive | Summary => None
  end.

(** One step of the batch.  Once the process has exited nothing runs. *)
Definition step (e : event) (s : state) : option state :=
  match main s with
  | Exited _ => None
  | _ =>
      match worker e with
      | Some i =>
          match goroutines s !! i with
          | Some g => stepWorker i g e s
          | None => None
          end
      | None => stepMain e s
      end
  end.

(** A schedule is a list of events, run from the left. *)
Fixpoint run (es : list event) (s : state) : option state :=
  match es with
  | [] => Some s
  | e :: es' =>
      match step e s with
      | Some s' => run es' s'
      | None => None
      end
  end.

Inductive reachable : state -> Prop :=
| reachable_init : reachable (init b)
| reachable_step s e s' :
    reachable s -> step e s = Some s' -> reachable s'.

(** The state after the schedule [es], as far as it can be run. *)
Definition stateAfter (es : list event) : state :=
  match run es (init b) with
  | Some s => s
  | None => init b
  end.

(** *** What is counted in a state *)

Definition count (P : pc -> bool) (gs : list goroutine) : nat :=
  length (List.filter (fun g => P (at_ g)) gs).

(** The goroutine has taken a permit and not yet given it back. *)
Definition holdsPermit (p : pc) : bool :=
  match p with
  | AtMutex | InRun | AfterRun _ | AtSend _ | AtRelease _ => true
  | AtSemaphore | Finished _ => false
  end.

(** The goroutine is inside [installPackageParallel]. *)
Definition installing (p : pc) : bool :=
  match p with
  | AtMutex | InRun | AfterRun _ => true
  | _ => false
  end.

(** The subprocess of the goroutine is in flight. *)
Definition inFlight (p : pc) : bool :=
  match p with
  | InRun => true
  | _ => false
  end.

(** The goroutine is between [npmMutex.Lock()] and the deferred
    [Unlock] (when it locks at all). *)
Definition inCritical (p : pc) : bool :=
  match p with
  | InRun | AfterRun _ => true
  | _ => false
  end.

(** The goroutine has sent its result. *)
Definition hasSent (p : pc) : option bool :=
  match p with
  | AtRelease ok | Finished ok => Some ok
  | _ => None
  end.

Definition usesTool (tool : string) (g : goroutine) : bool :=
  String.eqb (Path (taskCmd b (args g))) tool.

(** The number of subprocesses of [tool] in flight. *)
Definition toolInFlight (tool : string) (s : state) : nat :=
  length (List.filter (fun g => inFlight (at_ g) && usesTool tool g)
                      (goroutines s)).

(** The results sent so far, in the order of the goroutines. *)
Fixpoint sentResults (gs : list goroutine) : list installResult :=
  match gs with
  | [] => []
  | g :: gs' =>
      match hasSent (at_ g) with
      | Some ok => resultOf (args g) ok :: sentResults gs'
      | None => sentResults gs'
      end
  end.

(** The labels of the failures among [rs], in order. *)
Definition failedLabels (rs : list installResult) : list string :=
  map failedLabel (List.filter (fun r => negb (success r)) rs).

Definition succeeded (rs : list installResult) : nat :=
  length (List.filter success rs).

(** *** Invariants of the reachable states *)

(** The permits taken are those of the goroutines that hold one, and
    there are at most [maxConcurrent] of them. *)
Definition permitsInv (s : state) : Prop :=
  count holdsPermit (goroutines s) = semaphore s /\
  semaphore s <= maxConcurrent b.

(** On npm the mutex is locked exactly while one goroutine is between
    [Lock] and [Unlock]; on bun it is never locked. *)
Definition mutexInv (s : state) : Prop :=
  if useBun b then npmMutex s = false
  else count inCritical (goroutines s) = Nat.b2n (npmMutex s).

(** The goroutines keep their arguments, and the values received and
    those still in the channel are the values sent. *)
Definition resultsInv (s : state) : Prop :=
  map args (goroutines s) = tasks b /\
  Permutation (received s ++ results s) (sentResults (goroutines s)).

(** The boolean that [installPackageParallel] has returned, once it has. *)
Definition returned (p : pc) : option bool :=
  match p with
  | AfterRun ok | AtSend ok | AtRelease ok | Finished ok => Some ok
  | AtSemaphore | AtMutex | InRun => None
  end.

(** That boolean tells whether the subprocess ended without error. *)
Definition outcomeInv (s : state) : Prop :=
  forall i g ok,
    goroutines s !! i = Some g -> returned (at_ g) = Some ok ->
    ok = errNil (outcome i).

(** The results of all the tasks, in the order of the tasks. *)
Definition finalResults : list installResult :=
  imap (fun i t => resultOf t (errNil (outcome i))) (tasks b).

(** The statements a goroutine still has to execute. *)
Definition stepsLeft (p : pc) : nat :=
  match p with
  | AtSemaphore => 6
  | AtMutex => 5
  | InRun => 4
  | AfterRun _ => 3
  | AtSend _ => 2
  | AtRelease _ => 1
  | Finished _ => 0
  end.

(** The goroutine has [k] statements left. *)
Definition stage (k : nat) (p : pc) : bool := stepsLeft p =? k.

(** A bound on the number of steps left to the whole batch. *)
Definition stepsBound (s : state) : nat :=
  list_sum (map (fun g => stepsLeft (at_ g)) (goroutines s)) +
  match main s with
  | Collecting completed _ => S (totalDeps b - completed)
  | Summarized _ | Exited _ => 0
  end.

(** The variables of the collection loop against the history. *)
Definition mainInv (s : state) : Prop :=
  match main s with
  | Collecting completed failedDeps =>
      completed = length (received s) /\
      completed <= totalDeps b /\
      failedDeps = failedLabels (received s) /\
      (strict b = true -> Forall (fun r => success r = true) (received s))
  | Summarized failedDeps =>
      length (received s) = totalDeps b /\
      failedDeps = failedLabels (received s)
  | Exited code =>
      code = 1%Z /\ strict b = true /\
      exists before result,
        received s = before ++ [result] /\
        Forall (fun r => success r = true) before /\
        success result = false
  end.

End Batch.

(** The actions that start a subprocess. *)
Definition isRun (a : action) : bool :=
  match a with
  | Run _ => true
  | _ => false
  end.

(** ** More on [.config] *)

Section ConfigMore.
Context `{StringsPkg}.

(** A line that opens a group of [.config], once trimmed. *)
Definition isHeader (line : string) : bool :=
  HasPrefix line "Deps:" || HasPrefix line "DevDeps:".

(** The packages listed by the lines of one group: the lines that start
    with "- " once trimmed, without that mark. *)
Definition configItems (lines : list string) : list string :=
  map (fun line => TrimPrefix (TrimSpace line) "- ")
      (List.filter (fun line => HasPrefix (TrimSpace line) "- ") lines).

End ConfigMore.

(** ** More on the goroutines *)

(** In strict mode every result received so far was a success, as long
    as the process has not exited. *)
Definition strictInv (b : batch) (s : state) : Prop :=
  strict b = true ->
  match main s with
  | Exited _ => True
  | Collecting _ _ | Summarized _ =>
      Forall (fun r => success r = true) (received s)
  end.

(** ** The command line ([modules/cli.go]) *)

(** [strings.SplitN(s, sep, 2)] for a separator of one byte: [s] alone
    when it has no [sep], else the text before the first [sep] and the
    text after it. *)
Fixpoint cutAt (s : string) (sep : ascii) : option (string * string) :=
  match s with
  | EmptyString => None
  | String c s' =>
      if Ascii.eqb c sep then Some (EmptyString, s')
      else match cutAt s' sep with
           | Some (before, after) => Some (String c before, after)
           | None => None
           end
  end.

Definition SplitN2 (s : string) (sep : ascii) : list string :=
  match cutAt s sep with
  | Some (before, after) => [before; after]
  | None => [s]
  end.

(** The struct [InitFlags]. *)
Module InitFlags.
Record t := {
  Name : string;
  Description : string;
  Language : string;
  Port : string;
  Version : string;
  Alias : string;
  Author : string;
  Mode : string;
  Strict : bool
}.

(** [InitFlags{}]. *)
Definition zero : t :=
  {| Name := ""; Description := ""; Language := ""; Port := "";
     Version := ""; Alias := ""; Author := ""; Mode := ""; Strict := false |}.
End InitFlags.

(** The [switch] of [parseInitFlags] (lines 261-281). *)
Definition setFlag (flags : InitFlags.t) (flag value : string) : InitFlags.t :=
  let '(InitFlags.Build_t name desc lang port version alias author mode strict) :=
    flags in
  if String.eqb flag "--name" then
    InitFlags.Build_t value desc lang port version alias author mode strict
  else if String.eqb flag "--desc" || String.eqb flag "--description" then
    InitFlags.Build_t name value lang port version alias author mode strict
  else if String.eqb flag "--lang" || String.eqb flag "--language" then
    InitFlags.Build_t name desc value port version alias author mode strict
  else if String.eqb flag "--port" then
    InitFlags.Build_t name desc lang value version alias author mode strict
  else if String.eqb flag "--version" then
    InitFlags.Build_t name desc lang port value alias author mode strict
  else if String.eqb flag "--alias" then
    InitFlags.Build_t name desc lang port version value author mode strict
  else if String.eqb flag "--author" then
    InitFlags.Build_t name desc lang port version alias value mode strict
  else if String.eqb flag "--mode" then
    InitFlags.Build_t name desc lang port version alias author value strict
  else if String.eqb flag "--strict" then
    InitFlags.Build_t name desc lang port version alias author mode true
  else flags.

(** The loop of [parseInitFlags] (lines 243-282) from the argument at
    hand, [flags] being the struct built so far. *)
Fixpoint parseInitFlagsFrom (flags : InitFlags.t) (args : list string)
    : InitFlags.t :=
  match args with
  | [] => flags
  | arg :: rest =>
      if negb (HasPrefix arg "--") then parseInitFlagsFrom flags rest
      else if Contains arg "=" then
        let parts := SplitN2 arg "=" in
        parseInitFlagsFrom (setFlag flags (nth 0 parts "") (nth 1 parts "")) rest
      else
        match rest with
        | next :: rest' =>
            if negb (HasPrefix next "--")
            then parseInitFlagsFrom (setFlag flags arg next) rest'
            else parseInitFlagsFrom (setFlag flags arg "") rest
        | [] => parseInitFlagsFrom (setFlag flags arg "") rest
        end
  end.

Definition parseInitFlags (args : list string) : InitFlags.t :=
  parseInitFlagsFrom InitFlags.zero args.

(** The loop of [parseInstallArgs] (lines 292-305). *)
Fixpoint parseInstallArgsFrom (packages : list string) (mode : string)
    (args : list string) : list string * string :=
  match args with
  | [] => (packages, mode)
  | arg :: rest =>
      if HasPrefix arg "--" then
        if String.eqb arg "--mode" || HasPrefix arg "--mode=" then
          if Contains arg "=" then
            parseInstallArgsFrom packages (nth 1 (SplitN2 arg "=") "") rest
          else
            match rest with
            | next :: rest' => parseInstallArgsFrom packages next rest'
            | [] => parseInstallArgsFrom packages mode rest
            end
        else parseInstallArgsFrom packages mode rest
      else parseInstallArgsFrom (packages ++ [arg]) mode rest
  end.

Definition parseInstallArgs (args : list string) : list string * string :=
  parseInstallArgsFrom [] "" args.

(** What [Run] does: the method it calls or the line it prints. *)
Inductive call :=
| CallShowHelp
| CallInitProject (flags : InitFlags.t)
| CallStartServer
| CallInstallPackages (packages : list string) (mode : string)
| PrintVersion (version : string)
| PrintPackageRequired
| PrintUsage
| PrintAtLeastOnePackage
| PrintUnknownCommand (command : string).

(** The method [Run] of [CLITool] (lines 188-224), for a tool of version
    [version]. *)
Module CLITool.
Definition Run (version : string) (args : list string) : list call :=
  if length args <? 1 then [CallShowHelp]
  else
    let command := nth 0 args "" in
    if String.eqb command "init" then
      [CallInitProject (parseInitFlags (skipn 1 args))]
    else if String.eqb command "start" then [CallStartServer]
    else if String.eqb command "install" then
      if length args <? 2 then [PrintPackageRequired; PrintUsage]
      else
        let (packages, mode) := parseInstallArgs (skipn 1 args) in
        if length packages =? 0 then [PrintAtLeastOnePackage]
        else [CallInstallPackages packages mode]
    else if String.eqb command "version" || String.eqb command "-v" ||
            String.eqb command "--version" then [PrintVersion version]
    else if String.eqb command "help" || String.eqb command "-h" ||
            String.eqb command "--help" then [CallShowHelp]
    else [PrintUnknownCommand command; CallShowHelp].
End CLITool.

(** [GetPlatformInfo] ([modules/platform.go]) for the values [goos] and
    [goarch] of [runtime.GOOS] and [runtime.GOARCH]: the results [os],
    [arch] and [binaryName]. *)
Definition GetPlatformInfo (goos goarch : string) : string * string * string :=
  let goarch :=
    if String.eqb goarch "amd64" then "amd64"
    else if String.eqb goarch "arm64" then "arm64"
    else if String.eqb goarch "arm" then "arm"
    else "amd64" in
  if String.eqb goos "darwin" then
    ("darwin", goarch,
     if String.eqb goarch "amd64" then "xypcli-darwin-amd64"
     else "xypcli-darwin-arm64")
  else if String.eqb goos "linux" then
    ("linux", goarch,
     if String.eqb goarch "amd64" then "xypcli-linux-amd64"
     else "xypcli-linux-arm64")
  else if String.eqb goos "windows" then
    ("windows", goarch,
     if String.eqb goarch "amd64" then "xypcli-windows-amd64.exe"
     else "xypcli-windows-arm.exe")
  else ("linux", goarch, "xypcli-linux-amd64").

(** An argument that is a flag for the two parsers. *)
Definition isFlag (arg : string) : bool := HasPrefix arg "--".

(** ** The development server ([modules/server.go]) *)

(** The lines [StartServer] prints, without the logo. *)
Inductive serverMessage :=
| MsgStartingServer
| MsgNoPackageJsonFound
| MsgNoServerTsFound
| MsgRunInitFirst
| MsgInstallingFirst
| MsgInstallFailedFirst
| MsgStartingDev
| MsgPressCtrlC
| MsgServerFailed.

(** A command of [StartServer] writes to the terminal of the tool;
    [withStdin] tells whether it reads from it too. *)
Inductive serverAction :=
| ServerPrint (m : serverMessage)
| ServerStat (name : string)
| ServerRun (argv : list string) (withStdin : bool).

(** The environment of [StartServer]: what [os.Stat] answers, and whether
    a command ends without error. *)
Record serverWorld := {
  serverStat : string -> statResult;
  serverRuns : list string -> bool
}.

Definition notExist (r : statResult) : bool :=
  match r with
  | ErrNotExist => true
  | StatOk | ErrOther => false
  end.

(** [StartServer] (lines 10-52). *)
Definition StartServer (w : serverWorld) : list serverAction :=
  [ServerPrint MsgStartingServer; ServerStat "package.json"] ++
  if notExist (serverStat w "package.json") then
    [ServerPrint MsgNoPackageJsonFound; ServerPrint MsgRunInitFirst]
  else
    [ServerStat "src/server.ts"] ++
    if notExist (serverStat w "src/server.ts") then
      [ServerPrint MsgNoServerTsFound; ServerPrint MsgRunInitFirst]
    else
      let start :=
        [ServerPrint MsgStartingDev; ServerPrint MsgPressCtrlC;
         ServerRun ["npm"; "run"; "dev"] true] ++
        (if serverRuns w ["npm"; "run"; "dev"] then []
         else [ServerPrint MsgServerFailed]) in
      [ServerStat "node_modules"] ++
      if notExist (serverStat w "node_modules") then
        [ServerPrint MsgInstallingFirst; ServerRun ["npm"; "install"] false] ++
        (if serverRuns w ["npm"; "install"] then start
         else [ServerPrint MsgInstallFailedFirst])
      else start.

(** The commands among the actions of [StartServer]. *)
Definition serverCommands (acts : list serverAction) : list (list string) :=
  flat_map (fun a => match a with
                     | ServerRun argv _ => [argv]
                     | _ => []
                     end) acts.

(** ** The template archive ([extractTemplate]) *)

(** An entry of the archive: [file.Name], [file.FileInfo().IsDir()]. *)
Record zipFile := {
  zipName : string;
  zipIsDir : bool
}.

Inductive extractOp :=
| OpMkdirAll (path : string)
| OpCreate (path : string)          (* [os.OpenFile] with O_CREATE|O_TRUNC *)
| OpOpen (name : string)            (* [file.Open()] *)
| OpCopy (name path : string)       (* [io.Copy(destFile, srcFile)] *)
| OpCopyFailed (name path : string).

(** The errors [extractTemplate] returns. *)
Inductive extractError :=
| FailedToOpenZip
| FailedToCreateFile (filePath : string)
| FailedToOpenInZip (name : string)
| FailedToExtract (name : string).

(** Which of the fallible calls fail. *)
Record extractEnv := {
  createFails : string -> bool;
  openFails : string -> bool;
  copyFails : string -> bool
}.

(** Lines 414-417. *)
Definition templateDirOf (language : string) : string :=
  if String.eqb language "js" then "JS" else "TS".

(** Lines 420-427: the name under which an entry is extracted, if it is. *)
Definition templateFileName (templateDir name : string) : option string :=
  if negb (HasPrefix name (String.append templateDir "/")) &&
     negb (String.eqb name templateDir) then None
  else
    let fileName := TrimPrefix name (String.append templateDir "/") in
    if String.eqb fileName "" || HasPrefix fileName "_sys/" ||
       String.eqb fileName "_sys"
    then None
    else Some fileName.

Section Extract.

(** [filepath.Join] and [filepath.Dir] clean their result; the model is
    parametric in them. *)
Variable joinPath : string -> string -> string.
Variable dirOf : string -> string.
Variable env : extractEnv.

(** The loop of lines 419-456: the operations on the file system and the
    error returned, if any. *)
Fixpoint extractFiles (projectName templateDir : string)
    (files : list zipFile) : list extractOp * option extractError :=
  match files with
  | [] => ([], None)
  | file :: rest =>
      match templateFileName templateDir (zipName file) with
      | None => extractFiles projectName templateDir rest
      | Some fileName =>
          let filePath := joinPath projectName fileName in
          if zipIsDir file then
            let (ops, err) := extractFiles projectName templateDir rest in
            (OpMkdirAll filePath :: ops, err)
          else
            let opened := [OpMkdirAll (dirOf filePath); OpCreate filePath] in
            if createFails env filePath then
              (opened, Some (FailedToCreateFile filePath))
            else if openFails env (zipName file) then
              (opened ++ [OpOpen (zipName file)],
               Some (FailedToOpenInZip (zipName file)))
            else if copyFails env (zipName file) then
              (opened ++ [OpOpen (zipName file);
                          OpCopyFailed (zipName file) filePath],
               Some (FailedToExtract (zipName file)))
            else
              let (ops, err) := extractFiles projectName templateDir rest in
              (opened ++ [OpOpen (zipName file); OpCopy (zipName file) filePath]
                 ++ ops, err)
      end
  end.

(** [extractTemplate] (lines 407-459); [archive] is [None] when
    [zip.OpenReader] fails. *)
Definition extractTemplate (archive : option (list zipFile))
    (projectName language : string) : list extractOp * option extractError :=
  match archive with
  | None => ([], Some FailedToOpenZip)
  | Some files => extractFiles projectName (templateDirOf language) files
  end.

(** The files of the archive that are to be written, by their path. *)
Definition toWrite (projectName templateDir : string) (files : list zipFile)
    : list string :=
  flat_map (fun file =>
              if zipIsDir file then []
              else match templateFileName templateDir (zipName file) with
                   | Some fileName => [joinPath projectName fileName]
                   | None => []
                   end) files.

End Extract.

(** The paths created. *)
Definition created (ops : list extractOp) : list string :=
  flat_map (fun op => match op with
                      | OpCreate path => [path]
                      | _ => []
                      end) ops.

(** The paths written in full. *)
Definition copied (ops : list extractOp) : list string :=
  flat_map (fun op => match op with
                      | OpCopy _ path => [path]
                      | _ => []
                      end) ops.

(** ** The project configuration ([modules/config.go]) *)

(** The struct [ProjectConfig]. *)
Module ProjectConfig.
Record t := {
  Name : string;
  Description : string;
  Version : string;
  Port : Z;
  Language : string;
  AppName : string;
  AppAlias : string;
  Author : string;
  WithAuth : bool;
  WithUpload : bool;
  WithMulti : bool
}.
End ProjectConfig.

(** [strconv.Atoi] for an [int] of 64 bits: an optional sign and at
    least one decimal digit, within the range of [int]. *)
Definition digitOf (c : ascii) : option Z :=
  let n := nat_of_ascii c in
  if (48 <=? n) && (n <=? 57) then Some (Z.of_nat (n - 48)) else None.

Fixpoint digits (s : string) (acc : Z) : option Z :=
  match s with
  | EmptyString => Some acc
  | String c s' =>
      match digitOf c with
      | Some d => digits s' (10 * acc + d)
      | None => None
      end
  end.

Definition Atoi (s : string) : option Z :=
  let (negative, body) :=
    match s with
    | String c rest =>
        if Ascii.eqb c "+" then (false, rest)
        else if Ascii.eqb c "-" then (true, rest)
        else (false, s)
    | EmptyString => (false, s)
    end in
  match body with
  | EmptyString => None
  | _ =>
      match digits body 0 with
      | Some v =>
          let v := if negative then (- v)%Z else v in
          if ((- 2 ^ 63 <=? v) && (v <? 2 ^ 63))%Z then Some v else None
      | None => None
      end
  end.

(** What the two functions print. *)
Inductive configMessage :=
| AskName | AskDescription | AskLanguage | AskPort | AskVersion
| AskAlias | AskAuthor
| SayInvalidPort
| SayErrorReadingDirectory
| SayDirectoryNotEmpty (dirName : string)
| AskChoice
| SayDeleting (dirName : string)
| SayDeleteFailed
| SayDeleted
| SayInvalidChoice.

Section Config2.
Context `{StringsPkg}.

(** The file system is a state the functions pass along: [dirStat] is
    [os.Stat], [readDir] the number of entries [ioutil.ReadDir] returns
    (or an error), [removeAll] is [os.RemoveAll] with its success. *)
Variable fsState : Type.
Variable dirStat : fsState -> string -> statResult.
Variable readDir : fsState -> string -> option nat.
Variable removeAll : fsState -> string -> fsState * bool.

(** Each call of [GetProjectConfig] makes a reader of its own on the
    standard input; what the reader before it had buffered and not
    handed out is lost to it.  [freshReader] gives what the new reader
    has to read (on a terminal, all of it). *)
Variable freshReader : list string -> list string.

(** The standard input as the successive results of
    [reader.ReadString('\n')], the file system, and the lines printed. *)
Record session := {
  stdin : list string;
  files : fsState;
  printed : list configMessage
}.

(** [reader.ReadString('\n')], its error dropped: at the end of the
    input the result is empty. *)
Definition ReadString (s : session) : string * session :=
  match stdin s with
  | [] => (EmptyString, s)
  | line :: rest =>
      (line, {| stdin := rest; files := files s; printed := printed s |})
  end.

Definition say (m : configMessage) (s : session) : session :=
  {| stdin := stdin s; files := files s; printed := printed s ++ [m] |}.

(** [handleExistingDirectory] (lines 99-143); [fuel] bounds the number
    of calls, [None] is the bound reached. *)
Fixpoint handleExistingDirectory (fuel : nat) (dirName : string)
    (s : session) : option (bool * session) :=
  match fuel with
  | 0 => None
  | S fuel' =>
      if notExist (dirStat (files s) dirName) then Some (true, s)
      else
        match readDir (files s) dirName with
        | None => Some (false, say SayErrorReadingDirectory s)
        | Some n =>
            if n =? 0 then Some (true, s)
            else
              let s := say AskChoice (say (SayDirectoryNotEmpty dirName) s) in
              let (choice, s) := ReadString s in
              let choice := TrimSpace choice in
              if String.eqb choice "1" then
                let s := say (SayDeleting dirName) s in
                let (files', ok) := removeAll (files s) dirName in
                let s := {| stdin := stdin s; files := files';
                            printed := printed s |} in
                if ok then Some (true, say SayDeleted s)
                else Some (false, say SayDeleteFailed s)
              else if String.eqb choice "2" then Some (false, s)
              else handleExistingDirectory fuel' dirName (say SayInvalidChoice s)
        end
  end.

(** A prompt of [GetProjectConfig]: the flag when it is given, else the
    trimmed answer, else the default. *)
Definition ask (flag : string) (question : configMessage) (default : string)
    (s : session) : string * session :=
  if nonEmpty flag then (flag, s)
  else
    let (answer, s) := ReadString (say question s) in
    let answer := TrimSpace answer in
    (if nonEmpty answer then answer else default, s).

(** Lines 200-202 and 207-209: "js" or "ts". *)
Definition jsOrTs (language : string) : string :=
  if negb (String.eqb language "js") && negb (String.eqb language "ts")
  then "ts" else language.

(** The condition on a port of lines 214 and 224. *)
Definition validPort (text : string) : option Z :=
  match Atoi text with
  | Some port => if ((0 <? port) && (port <? 65536))%Z then Some port else None
  | None => None
  end.

(** [GetProjectConfig] (lines 153-269), after the name is settled. *)
Definition configureRest (flags : InitFlags.t) (name : string) (s : session)
    : ProjectConfig.t * session :=
  let (description, s) :=
    ask (InitFlags.Description flags) AskDescription "A XyPriss application" s in
  let (language, s) :=
    if nonEmpty (InitFlags.Language flags)
    then (jsOrTs (ToLower (InitFlags.Language flags)), s)
    else
      let (lang, s) := ReadString (say AskLanguage s) in
      (jsOrTs (TrimSpace (ToLower lang)), s) in
  let (port, s) :=
    if nonEmpty (InitFlags.Port flags) then
      match validPort (InitFlags.Port flags) with
      | Some port => (port, s)
      | None => (3000%Z, say SayInvalidPort s)
      end
    else
      let (portStr, s) := ReadString (say AskPort s) in
      let portStr := TrimSpace portStr in
      if nonEmpty portStr then
        match validPort portStr with
        | Some port => (port, s)
        | None => (3000%Z, say SayInvalidPort s)
        end
      else (3000%Z, s) in
  let (version, s) := ask (InitFlags.Version flags) AskVersion "1.0.0" s in
  let (alias, s) := ask (InitFlags.Alias flags) AskAlias "XyP" s in
  let (author, s) := ask (InitFlags.Author flags) AskAuthor "Nehonix" s in
  ({| ProjectConfig.Name := name;
      ProjectConfig.Description := description;
      ProjectConfig.Version := version;
      ProjectConfig.Port := port;
      ProjectConfig.Language := language;
      ProjectConfig.AppName := "";
      ProjectConfig.AppAlias := alias;
      ProjectConfig.Author := author;
      ProjectConfig.WithAuth := true;
      ProjectConfig.WithUpload := true;
      ProjectConfig.WithMulti := false |}, s).

(** [GetProjectConfig] (lines 153-269); [fuel] bounds the number of
    calls of the two functions. *)
Fixpoint GetProjectConfig (fuel : nat) (flags : InitFlags.t) (s : session)
    : option (ProjectConfig.t * session) :=
  match fuel with
  | 0 => None
  | S fuel' =>
      let (name, s) := ask (InitFlags.Name flags) AskName "my-xypriss-app" s in
      match handleExistingDirectory fuel' name s with
      | None => None
      | Some (false, s) =>
          GetProjectConfig fuel' InitFlags.zero
            {| stdin := freshReader (stdin s); files := files s;
               printed := printed s |}
      | Some (true, s) => Some (configureRest flags name s)
      end
  end.

End Config2.

Arguments stdin {fsState} _.
Arguments files {fsState} _.
Arguments printed {fsState} _.
Arguments say {fsState} m s.
Arguments ReadString {fsState} s.
Arguments ask {H fsState} flag question default s.
Arguments configureRest {H fsState} flags name s.

(** What every configuration satisfies. *)
Definition wellFormed (config : ProjectConfig.t) : Prop :=
  ProjectConfig.Name config <> "" /\
  ProjectConfig.Description config <> "" /\
  ProjectConfig.Version config <> "" /\
  ProjectConfig.AppAlias config <> "" /\
  ProjectConfig.Author config <> "" /\
  (0 < ProjectConfig.Port config < 65536)%Z /\
  (ProjectConfig.Language config = "js" \/
   ProjectConfig.Language config = "ts") /\
  ProjectConfig.WithAuth config = true /\
  ProjectConfig.WithUpload config = true /\
  ProjectConfig.WithMulti config = false.

(** ** Concrete inputs *)

(** The example P5 of the specification. *)
Definition stderrP5 : string :=
  "npm WARN deprecated foo
npm ERR! code ENOENT
npm ERR! enoent no such file".

(** A subprocess that succeeds, and one that fails as in P5. *)
Definition succeeds : finished := {| errNil := true; stderrBytes := "" |}.
Definition fails : finished := {| errNil := false; stderrBytes := stderrP5 |}.

(** A batch on the fast backend. *)
Definition bunBatch : batch :=
  {| projectDir := "app"; useBun := true; strict := false;
     deps := ["xypriss"; "nquickdev"]; devDeps := ["typescript"] |}.

(** A [.config] file with one package in each group. *)
Definition configText : string :=
  "Deps:
- xypriss
DevDeps:
- typescript
".

(** The batch of [xypcli install nquickdev nquickdev --mode b] where
    bun is installed. *)
Definition twoNquickdev : batch :=
  {| projectDir := "."; useBun := true; strict := false;
     deps := ["nquickdev"; "nquickdev"]; devDeps := [] |}.

(** The same list with [--mode n]. *)
Definition twoOnNpm : batch :=
  {| projectDir := "."; useBun := false; strict := false;
     deps := ["nquickdev"; "nquickdev"]; devDeps := [] |}.

(** Five packages. *)
Definition fivePackages : batch :=
  {| projectDir := "."; useBun := true; strict := false;
     deps := ["xypriss"; "cors"; "helmet"; "dotenv"; "zod"]; devDeps := [] |}.

(** A strict batch with a regular and a development dependency. *)
Definition strictBatch : batch :=
  {| projectDir := "app"; useBun := true; strict := true;
     deps := ["xypriss"]; devDeps := ["typescript"] |}.

(** Every subprocess succeeds; the subprocess of goroutine [k] fails. *)
Definition allSucceed : nat -> finished := fun _ => succeeds.
Definition failsAt (k : nat) : nat -> finished :=
  fun i => if i =? k then fails else succeeds.

(** An environment: [package.json] and [.config] are there; of the two
    tools only [npmThere] and [bunThere] say which are on the search
    path; every command ends as [r]. *)
Definition someWorld (bunThere npmThere : bool) (r : finished) : world :=
  {| osStat := fun _ => StatOk;
     readFile := fun _ => Some configText;
     onPath := fun file =>
       if String.eqb file "bun" then bunThere
       else if String.eqb file "npm" then npmThere
       else false;
     runs := fun _ => r |}.

(** The same outside a project: there is no [package.json]. *)
Definition outsideProject : world :=
  {| osStat := fun _ => ErrNotExist;
     readFile := fun _ => None;
     onPath := fun _ => true;
     runs := fun _ => succeeds |}.

(** The goroutines of [fivePackages] once the first has its result to
    send. *)
Definition firstToSend : list event := [Acquire 0; Start 0; Wait 0; Unlock 0].

(** The task of the first goroutine of [fivePackages]. *)
Definition firstOfFive : task :=
  {| t_packageName := "xypriss"; t_isDev := false; t_index := 0;
     t_current := 1 |}.

(** The lines of a [.config] with a comment, two groups and an empty
    line. *)
Definition configBefore : list string := ["# packages of the template"].
Definition configDeps : list string := ["- xypriss"; "  - cors  "; ""].
Definition configDevDeps : list string := ["- typescript"; "not a package"].

(** An archive with both templates. *)
Definition someArchive : list zipFile :=
  [ {| zipName := "TS/"; zipIsDir := true |};
    {| zipName := "TS/package.json"; zipIsDir := false |};
    {| zipName := "TS/_sys/notes.md"; zipIsDir := false |};
    {| zipName := "JS/package.json"; zipIsDir := false |};
    {| zipName := "TS/src/"; zipIsDir := true |};
    {| zipName := "TS/src/server.ts"; zipIsDir := false |} ].

(** A file system that is one boolean: whether the directory asked for
    exists, with two entries. *)
Definition diskStat (there : bool) (dirName : string) : statResult :=
  if there then StatOk else ErrNotExist.
Definition diskReadDir (there : bool) (dirName : string) : option nat :=
  if there then Some 2 else None.
Definition diskRemoveAll (there : bool) (dirName : string) : bool * bool :=
  (false, true).

(** A session at a terminal: the reader of a later call misses nothing. *)
Definition atTerminal (lines : list string) (there : bool) : session bool :=
  {| stdin := lines; files := there; printed := [] |}.
Definition sameReader (lines : list string) : list string := lines.

(** The answers "3" and "2", each with its line feed. *)
Definition answers32 : list string := ["3
"; "2
"].

(** A name, no description, a language in capitals and a port out of
    range. *)
Definition fourAnswers : list string := ["shop
"; "
"; "JS
"; "99999
"].

(** Every flag of [xypcli init]. *)
Definition allFlags : InitFlags.t :=
  {| InitFlags.Name := "shop"; InitFlags.Description := "A shop";
     InitFlags.Language := "JS"; InitFlags.Port := "8081";
     InitFlags.Version := "0.1.0"; InitFlags.Alias := "shp";
     InitFlags.Author := "me"; InitFlags.Mode := "n";
     InitFlags.Strict := true |}.

(** * Properties *)

(** ** The diagnostic *)

Section DiagnosticFacts.
Context `{StringsPkg}.

Lemma nonEmpty_true (s : string) : s <> "" -> nonEmpty s = true.
Proof.
  intros Hs. unfold nonEmpty. destruct (String.eqb s "") eqn:E; [|reflexivity].
  apply String.eqb_eq in E. contradiction.
Qed.

Lemma collectErrorLines_filter (lines errorLines : list string) :
  collectErrorLines lines errorLines =
  errorLines ++
    List.filter isErrorLine (List.filter nonEmpty (map TrimSpace lines)).
Proof.
  revert errorLines.
  induction lines as [|line rest IH]; intros acc; simpl.
  - now rewrite app_nil_r.
  - destruct (nonEmpty (TrimSpace line)); simpl; [|apply IH].
    destruct (isErrorLine (TrimSpace line)); [|apply IH].
    rewrite IH, <- app_assoc. reflexivity.
Qed.

Lemma firstStderrLines_firstn (lines errorLines : list string) :
  firstStderrLines lines errorLines =
  errorLines ++
    firstn (3 - length errorLines)
           (List.filter nonEmpty (map TrimSpace lines)).
Proof.
  revert errorLines.
  induction lines as [|line rest IH]; intros acc; simpl.
  - now rewrite firstn_nil, app_nil_r.
  - destruct (nonEmpty (TrimSpace line)); simpl; [|apply IH].
    destruct (Nat.ltb_spec (length acc) 3) as [Hlt|Hge].
    + rewrite IH, <- app_assoc, length_app. simpl.
      replace (3 - length acc) with (S (3 - (length acc + 1))) by lia.
      reflexivity.
    + rewrite IH. replace (3 - length acc) with 0 by lia. reflexivity.
Qed.

Lemma truncate_firstn {A} (n : nat) (l : list A) :
  (if n <? length l then firstn n l else l) = firstn n l.
Proof.
  destruct (Nat.ltb_spec n (length l)); [reflexivity|].
  symmetry. now apply firstn_all2.
Qed.

Lemma errorLinesOf_spec (errOutput : string) :
  errOutput <> "" -> errorLinesOf errOutput = spec_diagnostic errOutput.
Proof.
  intros Hne. unfold errorLinesOf, spec_diagnostic, trimmedLines.
  rewrite truncate_firstn, collectErrorLines_filter, (nonEmpty_true _ Hne).
  simpl.
  destruct (List.filter isErrorLine _) as [|l ls] eqn:E; simpl; [|reflexivity].
  now rewrite firstStderrLines_firstn.
Qed.

(** C3. For a non-empty captured stderr the lines shown are, in the order
    of stderr, the trimmed non-empty lines that contain one of the markers
    "ERR!", "error", "404", "ENOENT", "ENOTEMPTY", "code" and whose
    lowercased form has no "warn"; when there is none, the first three
    trimmed non-empty lines; and never more than five lines. *)
Theorem diagnostic_extraction (errOutput : string) :
  errOutput <> "" ->
  diagnostic errOutput = spec_diagnostic errOutput /\
  length (diagnostic errOutput) <= 5.
Proof.
  intros Hne.
  assert (E : diagnostic errOutput = spec_diagnostic errOutput).
  { unfold diagnostic. rewrite (nonEmpty_true _ Hne).
    now apply errorLinesOf_spec. }
  split; [exact E|].
  rewrite E. unfold spec_diagnostic. rewrite length_firstn. lia.
Qed.

End DiagnosticFacts.

Example diagnostic_P5 :
  @diagnostic asciiStrings stderrP5 =
  ["npm ERR! code ENOENT"; "npm ERR! enoent no such file"].
Proof. reflexivity. Qed.

Example diagnostic_fallback :
  @diagnostic asciiStrings "first

  second
third
fourth" = ["first"; "second"; "third"].
Proof. reflexivity. Qed.

Lemma diagnostic_extraction_witness :
  stderrP5 <> "" /\
  @diagnostic asciiStrings stderrP5 = @spec_diagnostic asciiStrings stderrP5 /\
  length (@diagnostic asciiStrings stderrP5) <= 5.
Proof.
  split; [discriminate|].
  apply (@diagnostic_extraction asciiStrings stderrP5). discriminate.
Defined.

(** ** The command of a package *)

(** C6. With the fast backend selected, "nquickdev" is installed by an
    npm command and every other package by a bun command, in
    [installPackageParallel] (hence for every task of a batch) and in
    [installSingleDependency]. *)
Theorem nquickdev_uses_npm (b : batch) (t : task) (dir dep : string) (dev : bool) :
  useBun b = true ->
  Path (taskCmd b t) =
    (if String.eqb (t_packageName t) "nquickdev" then "npm" else "bun") /\
  Path (installSingleDependency_cmd dir dep dev true) =
    (if String.eqb dep "nquickdev" then "npm" else "bun").
Proof.
  intros Hbun. unfold taskCmd, installPackageParallel_cmd,
    installSingleDependency_cmd. rewrite Hbun. simpl.
  split.
  - destruct (String.eqb (t_packageName t) "nquickdev"); reflexivity.
  - destruct (String.eqb dep "nquickdev"), dev; reflexivity.
Qed.

Lemma nquickdev_uses_npm_witness :
  useBun bunBatch = true /\
  argv (taskCmd bunBatch {| t_packageName := "nquickdev"; t_isDev := false;
                            t_index := 1; t_current := 2 |}) =
    ["npm"; "install"; "nquickdev"] /\
  Path (taskCmd bunBatch {| t_packageName := "nquickdev"; t_isDev := false;
                            t_index := 1; t_current := 2 |}) = "npm" /\
  Path (installSingleDependency_cmd "." "xypriss" false true) = "bun".
Proof.
  split; [reflexivity|]. split; [reflexivity|].
  exact (nquickdev_uses_npm bunBatch
           {| t_packageName := "nquickdev"; t_isDev := false;
              t_index := 1; t_current := 2 |} "." "xypriss" false eq_refl).
Defined.

(** The command of a task is the same for a development dependency and
    for a regular one. *)
Lemma taskCmd_ignores_isDev (b : batch) (t t' : task) :
  t_packageName t = t_packageName t' -> taskCmd b t = taskCmd b t'.
Proof. unfold taskCmd. now intros ->. Qed.

(** C2. [installDependencies] on a [.config] with the development
    dependency "typescript", npm being the backend: the task is tagged as
    a development dependency and its command is [npm install typescript],
    where [installSingleDependency] builds
    [npm install --save-dev typescript]; on the fast backend the commands
    are [bun add typescript] and [bun add -d typescript]. *)
Theorem dev_dependency_flag_dropped :
  exists acts b,
    @installDependencies asciiStrings "app" "ts" "n" false
       (someWorld false true succeeds) = (acts, Value b) /\
    tasks b =
      [ {| t_packageName := "xypriss"; t_isDev := false;
           t_index := 0; t_current := 1 |};
        {| t_packageName := "typescript"; t_isDev := true;
           t_index := 0; t_current := 2 |} ] /\
    map (fun t => argv (taskCmd b t)) (tasks b) =
      [ ["npm"; "install"; "xypriss"]; ["npm"; "install"; "typescript"] ] /\
    argv (installSingleDependency_cmd "app" "typescript" true false) =
      ["npm"; "install"; "--save-dev"; "typescript"] /\
    argv (installPackageParallel_cmd "app" "typescript" true) =
      ["bun"; "add"; "typescript"] /\
    argv (installSingleDependency_cmd "app" "typescript" true true) =
      ["bun"; "add"; "-d"; "typescript"].
Proof.
  eexists. eexists. split; [vm_compute; reflexivity|].
  repeat split; reflexivity.
Qed.

(** ** The entry points *)

(** C10. Without a [package.json] in the current directory,
    [InstallPackage] and [InstallPackages] print their two lines and
    return: no search for bun or npm, no command, no goroutine, and no
    exit of the process. *)
Theorem no_package_json_returns (w : world) (packageName : string)
    (packages : list string) (mode : string) :
  osStat w "package.json" = ErrNotExist ->
  InstallPackage packageName w =
    ([Print MsgInstallingDependencies; Stat "package.json";
      Print MsgNoPackageJson; Print MsgNotAProjectDirectory], Return) /\
  InstallPackages packages mode w =
    ([Print (MsgInstallingPackages (length packages)); Stat "package.json";
      Print MsgNoPackageJson; Print MsgNotAProjectDirectory], Return).
Proof.
  intros Hstat.
  unfold InstallPackage, InstallPackages, bind, print, stat, returnNow.
  rewrite Hstat. split; reflexivity.
Qed.

Lemma no_package_json_returns_witness :
  osStat outsideProject "package.json" = ErrNotExist /\
  InstallPackage "cors" outsideProject =
    ([Print MsgInstallingDependencies; Stat "package.json";
      Print MsgNoPackageJson; Print MsgNotAProjectDirectory], Return) /\
  InstallPackages ["xypriss"; "cors"] "b" outsideProject =
    ([Print (MsgInstallingPackages 2); Stat "package.json";
      Print MsgNoPackageJson; Print MsgNotAProjectDirectory], Return).
Proof.
  split; [reflexivity|].
  exact (no_package_json_returns outsideProject "cors" ["xypriss"; "cors"] "b"
           eq_refl).
Defined.

(** C8. In automatic mode without bun on the search path,
    [installDependencies] runs one command, [npm install -g bun] with
    both outputs discarded.  When it fails and npm is on the search path
    the batch is started on npm; only when it fails and npm is missing
    too does the function return before any goroutine is started.  The
    process never exits here. *)
Theorem auto_mode_fallback `{StringsPkg} (w : world)
    (projectName language mode data : string) (strict : bool) :
  mode <> "b" -> mode <> "n" ->
  onPath w "bun" = false ->
  readFile w (Join projectName ".config") = Some data ->
  exists acts r,
    installDependencies projectName language mode strict w = (acts, r) /\
    List.filter isRun acts = [Run installBun_cmd] /\
    argv installBun_cmd = ["npm"; "install"; "-g"; "bun"] /\
    Stdout installBun_cmd = Discard /\ Stderr installBun_cmd = Discard /\
    (errNil (runs w installBun_cmd) = false -> onPath w "npm" = true ->
       exists b, r = Value b /\ useBun b = false) /\
    (r = Return <->
       errNil (runs w installBun_cmd) = false /\ onPath w "npm" = false) /\
    (forall code, r <> Exit code).
Proof.
  intros Hb Hn Hbun Hread.
  apply String.eqb_neq in Hb. apply String.eqb_neq in Hn.
  unfold installDependencies, bind, ioReadFile. rewrite Hread.
  destruct (parseConfig _ _ _ _ _) as [ds dds].
  unfold selectBackend, installBun, requireNpm, bind, lookPath, runCmd,
    print, osRemove, ret, returnNow.
  rewrite Hb, Hn, Hbun.
  destruct (errNil (runs w installBun_cmd)) eqn:Hprov;
    destruct (onPath w "npm") eqn:Hnpm;
    destruct (0 <? length ds); destruct (0 <? length dds); simpl;
    (eexists; eexists; split; [reflexivity|]);
    (repeat split; try reflexivity; try discriminate; try tauto;
     try (intros; eexists; split; [reflexivity|reflexivity]);
     try (intros [? ?]; discriminate)).
Qed.

Lemma auto_mode_fallback_witness :
  exists acts b,
    @installDependencies asciiStrings "app" "ts" "" false
      (someWorld false true fails) = (acts, Value b) /\
    List.filter isRun acts = [Run installBun_cmd] /\
    useBun b = false.
Proof.
  destruct (@auto_mode_fallback asciiStrings (someWorld false true fails)
              "app" "ts" "" configText false)
    as (acts & r & Heq & Hrun & _ & _ & _ & Hnpm & _);
    try discriminate; try reflexivity.
  destruct (Hnpm eq_refl eq_refl) as (b & -> & Hb).
  exists acts, b. repeat split; assumption.
Defined.

(** ** The batch an entry point starts *)

(** The batch of [InstallPackages] is never strict and has one group. *)
Lemma InstallPackages_batch (w : world) (packages : list string)
    (mode : string) (acts : list action) (b : batch) :
  InstallPackages packages mode w = (acts, Value b) ->
  projectDir b = "." /\ strict b = false /\
  deps b = packages /\ devDeps b = [].
Proof.
  unfold InstallPackages, requireNpm, bind, print, stat, lookPath, ret,
    returnNow.
  destruct (osStat w "package.json"), (String.eqb mode "b"),
    (String.eqb mode "n"), (onPath w "bun"), (onPath w "npm"); simpl;
    intros Heq; try discriminate Heq; injection Heq as _ <-; auto.
Qed.

(** The batch of [installDependencies] has the flag [strict] of the
    caller and the two groups read from [.config]. *)
Lemma installDependencies_batch `{StringsPkg} (w : world)
    (projectName language mode : string) (strictMode : bool)
    (acts : list action) (b : batch) :
  installDependencies projectName language mode strictMode w = (acts, Value b) ->
  projectDir b = projectName /\ strict b = strictMode /\
  exists data,
    readFile w (Join projectName ".config") = Some data /\
    (deps b, devDeps b) = parseConfig (Split data newline) false false [] [].
Proof.
  unfold installDependencies, bind, ioReadFile.
  destruct (readFile w (Join projectName ".config")) as [data|];
    [|discriminate].
  destruct (parseConfig _ _ _ _ _) as [ds dds] eqn:Hparse.
  unfold selectBackend, installBun, requireNpm, bind, lookPath, runCmd,
    print, osRemove, ret, returnNow.
  destruct (String.eqb mode "b"), (String.eqb mode "n"), (onPath w "bun"),
    (errNil (runs w installBun_cmd)), (onPath w "npm"),
    (0 <? length ds), (0 <? length dds); simpl;
    intros Heq; try discriminate Heq; injection Heq as _ <-; simpl;
    eauto.
Qed.

(** ** The goroutines: invariants of the reachable states *)

Section BatchFacts.
Context `{StringsPkg}.
Variable b : batch.
Variable outcome : nat -> finished.

Lemma filter_insert_length (Q : goroutine -> bool) (gs : list goroutine)
    (i : nat) (g g' : goroutine) :
  gs !! i = Some g ->
  length (List.filter Q (<[i := g']> gs)) + Nat.b2n (Q g) =
  length (List.filter Q gs) + Nat.b2n (Q g').
Proof.
  revert i. induction gs as [|a gs IH]; intros [|i] Hi; simpl in *;
    try discriminate.
  - injection Hi as ->. destruct (Q g), (Q g'); simpl; lia.
  - specialize (IH i Hi). destruct (Q a); simpl; lia.
Qed.

Lemma count_moveTo (P : pc -> bool) (s : state) (i : nat) (g : goroutine) (p : pc) :
  goroutines s !! i = Some g ->
  count P (moveTo i g p s) + Nat.b2n (P (at_ g)) =
  count P (goroutines s) + Nat.b2n (P p).
Proof.
  intros Hi. unfold count, moveTo.
  exact (filter_insert_length (fun g => P (at_ g)) _ i g
           {| args := args g; at_ := p |} Hi).
Qed.

Ltac step_cases Hstep :=
  unfold step in Hstep;
  let Hmain := fresh "Hmain" in
  destruct (main _) as [completed failedDeps|failedDeps|code] eqn:Hmain in Hstep;
  [ | | discriminate Hstep ];
  match type of Hstep with
  | context [worker ?e] =>
      destruct e as [i|i|i|i|i|i| |]; simpl in Hstep
  end;
  try (unfold stepMain in Hstep; rewrite Hmain in Hstep; try discriminate Hstep);
  try match type of Hstep with
      | context [results ?s] =>
          let E := fresh "Hresults" in
          destruct (completed <? totalDeps b) eqn:Hcond in Hstep;
          [|discriminate Hstep];
          destruct (results s) as [|result rest] eqn:E in Hstep;
          [discriminate Hstep|]
      end;
  try (let Hg := fresh "Hg" in let Hat := fresh "Hat" in
       match type of Hstep with
       | context [goroutines ?s !! ?i] =>
           destruct (goroutines s !! i) as [g|] eqn:Hg in Hstep;
           [|discriminate Hstep];
           unfold stepWorker in Hstep;
           destruct (at_ g) eqn:Hat in Hstep; try discriminate Hstep
       end);
  repeat match type of Hstep with
         | (if ?c then _ else _) = Some _ =>
             let E := fresh "Hcond" in destruct c eqn:E; try discriminate Hstep
         | (let (_, _) := ?x in _) = Some _ =>
             let E := fresh "Hreport" in destruct x eqn:E
         | match ?x with _ => _ end = Some _ =>
             let E := fresh "Hcase" in destruct x eqn:E; try discriminate Hstep
         end;
  injection Hstep as <-.

Lemma collect_frame (result : installResult) (completed : nat)
    (failedDeps : list string) (s : state) :
  goroutines (collect b result completed failedDeps s) = goroutines s /\
  semaphore (collect b result completed failedDeps s) = semaphore s /\
  npmMutex (collect b result completed failedDeps s) = npmMutex s /\
  results (collect b result completed failedDeps s) = tail (results s) /\
  received (collect b result completed failedDeps s) = received s ++ [result].
Proof.
  unfold collect. destruct (success result), (strict b); simpl; auto.
Qed.

Lemma permitsInv_step (s : state) (e : event) (s' : state) :
  step b outcome e s = Some s' -> permitsInv b s -> permitsInv b s'.
Proof.
  intros Hstep [Hcount Hle].
  step_cases Hstep; unfold permitsInv; simpl;
    try (destruct (collect_frame result completed failedDeps s)
           as (-> & -> & _); auto);
    try match goal with
        | Hg : goroutines s !! ?i = Some ?g |- context [moveTo ?i ?g ?p s] =>
            pose proof (count_moveTo holdsPermit s i g p Hg) as Hmove;
            rewrite Hat in Hmove; simpl in Hmove
        end;
    try apply Nat.ltb_lt in Hcond; try (split; lia); auto.
Qed.

Lemma permitsInv_reachable (s : state) : reachable b outcome s -> permitsInv b s.
Proof.
  induction 1 as [|s e s' _ IH Hstep].
  - unfold permitsInv, init, count. simpl. split; [|lia].
    induction (tasks b); simpl; auto.
  - eapply permitsInv_step; eauto.
Qed.

Lemma mutexInv_step (s : state) (e : event) (s' : state) :
  step b outcome e s = Some s' -> mutexInv b s -> mutexInv b s'.
Proof.
  intros Hstep Hinv. unfold mutexInv in *.
  step_cases Hstep; simpl;
    try (destruct (collect_frame result completed failedDeps s)
           as (-> & _ & -> & _); auto);
    try match goal with
        | Hg : goroutines s !! ?i = Some ?g |- context [moveTo ?i ?g ?p s] =>
            pose proof (count_moveTo inCritical s i g p Hg) as Hmove;
            rewrite Hat in Hmove; simpl in Hmove
        end;
    destruct (useBun b); try discriminate; auto;
    destruct (npmMutex s); try discriminate; simpl in *; lia.
Qed.

Lemma mutexInv_reachable (s : state) : reachable b outcome s -> mutexInv b s.
Proof.
  induction 1 as [|s e s' _ IH Hstep].
  - unfold mutexInv, init, count. simpl. destruct (useBun b); [reflexivity|].
    induction (tasks b); simpl; auto.
  - eapply mutexInv_step; eauto.
Qed.

Lemma args_insert (gs : list goroutine) (i : nat) (g : goroutine) (p : pc) :
  gs !! i = Some g ->
  map args (<[i := {| args := args g; at_ := p |}]> gs) = map args gs.
Proof.
  revert i. induction gs as [|a gs IH]; intros [|i] Hi; simpl in *;
    try discriminate.
  - now injection Hi as ->.
  - now rewrite IH.
Qed.

Lemma sentResults_insert_same (gs : list goroutine) (i : nat) (g : goroutine)
    (p : pc) :
  gs !! i = Some g -> hasSent p = hasSent (at_ g) ->
  sentResults (<[i := {| args := args g; at_ := p |}]> gs) = sentResults gs.
Proof.
  revert i. induction gs as [|a gs IH]; intros [|i] Hi Hp; simpl in *;
    try discriminate.
  - injection Hi as ->. simpl. now rewrite Hp.
  - now rewrite IH.
Qed.

Lemma sentResults_insert_send (gs : list goroutine) (i : nat) (g : goroutine)
    (p : pc) (ok : bool) :
  gs !! i = Some g -> hasSent (at_ g) = None -> hasSent p = Some ok ->
  Permutation (sentResults (<[i := {| args := args g; at_ := p |}]> gs))
              (resultOf (args g) ok :: sentResults gs).
Proof.
  revert i. induction gs as [|a gs IH]; intros [|i] Hi Hg Hp; simpl in *;
    try discriminate.
  - injection Hi as ->. simpl. now rewrite Hg, Hp.
  - destruct (hasSent (at_ a)); [|now apply IH].
    rewrite (IH i Hi Hg Hp). apply perm_swap.
Qed.

Lemma sentResults_length (gs : list goroutine) :
  length (sentResults gs) <= length gs.
Proof.
  induction gs as [|a gs IH]; simpl; [lia|].
  destruct (hasSent (at_ a)); simpl; lia.
Qed.

Lemma resultsInv_step (s : state) (e : event) (s' : state) :
  step b outcome e s = Some s' -> resultsInv b s -> resultsInv b s'.
Proof.
  intros Hstep [Hargs Hperm].
  step_cases Hstep; unfold resultsInv, moveTo; simpl;
    try (destruct (collect_frame result completed failedDeps s)
           as (-> & _ & _ & -> & ->);
         rewrite Hresults in *; simpl;
         rewrite <- app_assoc; simpl; now auto);
    try (rewrite (args_insert _ _ _ _ Hg); split; [assumption|]);
    try (rewrite sentResults_insert_same by (try assumption; now rewrite Hat);
         assumption);
    auto.
  all: match goal with
       | |- Permutation _ (sentResults (<[_ := {| args := _; at_ := AtRelease ?ok |}]> _)) =>
           rewrite sentResults_insert_send with (ok := ok)
             by (try assumption; try reflexivity; now rewrite Hat);
           rewrite app_assoc, <- Hperm;
           symmetry; apply Permutation_cons_append
       end.
Qed.

Lemma resultsInv_reachable (s : state) : reachable b outcome s -> resultsInv b s.
Proof.
  induction 1 as [|s e s' _ IH Hstep].
  - unfold resultsInv, init. simpl. split.
    + rewrite map_map. simpl. apply map_id.
    + induction (tasks b); simpl; auto.
  - eapply resultsInv_step; eauto.
Qed.

Lemma failedLabels_snoc (rs : list installResult) (r : installResult) :
  failedLabels (rs ++ [r]) =
  failedLabels rs ++ (if success r then [] else [failedLabel r]).
Proof.
  unfold failedLabels. rewrite List.filter_app, map_app. simpl.
  destruct (success r); reflexivity.
Qed.

Lemma succeeded_snoc (rs : list installResult) (r : installResult) :
  succeeded (rs ++ [r]) = succeeded rs + Nat.b2n (success r).
Proof.
  unfold succeeded. rewrite List.filter_app, length_app. simpl.
  destruct (success r); reflexivity.
Qed.

Lemma mainInv_step (s : state) (e : event) (s' : state) :
  step b outcome e s = Some s' -> mainInv b s -> mainInv b s'.
Proof.
  intros Hstep Hinv. unfold mainInv in *.
  step_cases Hstep; simpl; rewrite Hmain in Hinv; try rewrite Hmain;
    try assumption.
  - (* Receive *)
    destruct Hinv as (Hc & Hle & Hf & Hstrict).
    apply Nat.ltb_lt in Hcond.
    unfold collect.
    destruct (success result) eqn:Hok; [|destruct (strict b) eqn:Hs]; simpl.
    + rewrite length_app, failedLabels_snoc, Hok, app_nil_r. simpl.
      repeat split; try lia; try assumption.
      intros Hs. apply Forall_app. split; [auto|]. now constructor.
    + repeat split. exists (received s), result. auto.
    + rewrite length_app, failedLabels_snoc, Hok. simpl.
      repeat split; try lia; try congruence.
  - (* Summary *)
    destruct Hinv as (Hc & Hle & Hf & _).
    apply Nat.ltb_ge in Hcond. split; [lia|assumption].
Qed.

Lemma mainInv_reachable (s : state) : reachable b outcome s -> mainInv b s.
Proof.
  induction 1 as [|s e s' _ IH Hstep].
  - unfold mainInv, init. simpl. repeat split; try lia. constructor.
  - eapply mainInv_step; eauto.
Qed.

Lemma run_reachable (es : list event) (s s' : state) :
  reachable b outcome s -> run b outcome es s = Some s' -> reachable b outcome s'.
Proof.
  revert s. induction es as [|e es IH]; intros s Hs Hrun; simpl in Hrun.
  - now injection Hrun as <-.
  - destruct (step b outcome e s) as [s1|] eqn:Hstep; [|discriminate].
    eapply IH; [|eassumption]. econstructor; eassumption.
Qed.

Lemma report_ok (name : string) (current total : nat) (r : finished) :
  snd (installPackageParallel_report name current total r) = errNil r.
Proof.
  unfold installPackageParallel_report. destruct (errNil r); reflexivity.
Qed.

Lemma lookup_moveTo (s : state) (i j : nat) (g g' : goroutine) (p : pc) :
  moveTo i g p s !! j = Some g' ->
  (j = i /\ g' = {| args := args g; at_ := p |}) \/
  (j <> i /\ goroutines s !! j = Some g').
Proof.
  unfold moveTo. intros Hj. apply list_lookup_insert_Some in Hj.
  destruct Hj as [(-> & <- & _)|(Hne & Hj)]; auto.
Qed.

Lemma outcomeInv_step (s : state) (e : event) (s' : state) :
  step b outcome e s = Some s' -> outcomeInv outcome s ->
  outcomeInv outcome s'.
Proof.
  intros Hstep Hinv j g' ok' Hj Hret.
  step_cases Hstep; simpl in Hj;
    try (destruct (collect_frame result completed failedDeps s) as (E & _);
         rewrite E in Hj; now eauto);
    try (now eauto);
    apply lookup_moveTo in Hj; destruct Hj as [(-> & ->)|(_ & Hj)];
    try (now eauto); simpl in Hret; try discriminate Hret;
    injection Hret as <-;
    try (apply (Hinv _ _ _ Hg); now rewrite Hat).
  all: match goal with
       | E : installPackageParallel_report ?n ?c ?t ?r = _ |- _ =>
           pose proof (report_ok n c t r) as Hok; rewrite E in Hok;
           exact Hok
       end.
Qed.

Lemma outcomeInv_reachable (s : state) :
  reachable b outcome s -> outcomeInv outcome s.
Proof.
  induction 1 as [|s e s' _ IH Hstep].
  - intros i g ok Hi Hret. unfold init in Hi. simpl in Hi.
    rewrite list_lookup_fmap in Hi.
    destruct (tasks b !! i); simpl in Hi; [|discriminate].
    injection Hi as <-. discriminate.
  - eapply outcomeInv_step; eauto.
Qed.

(** *** Every run ends *)

Lemma list_sum_insert (f : goroutine -> nat) (gs : list goroutine) (i : nat)
    (g g' : goroutine) :
  gs !! i = Some g ->
  list_sum (map f (<[i := g']> gs)) + f g = list_sum (map f gs) + f g'.
Proof.
  revert i. induction gs as [|a gs IH]; intros [|i] Hi; simpl in *;
    try discriminate.
  - injection Hi as ->. lia.
  - specialize (IH i Hi). lia.
Qed.

Lemma step_decreases (s : state) (e : event) (s' : state) :
  step b outcome e s = Some s' -> stepsBound b s' < stepsBound b s.
Proof.
  intros Hstep. unfold stepsBound.
  step_cases Hstep; simpl; rewrite ?Hmain;
    try match goal with
        | Hg : goroutines s !! ?i = Some ?g |- context [moveTo ?i ?g ?p s] =>
            pose proof (list_sum_insert (fun x => stepsLeft (at_ x)) _ i g
                          {| args := args g; at_ := p |} Hg) as Hsum;
            simpl in Hsum; rewrite Hat in Hsum; simpl in Hsum;
            unfold moveTo; lia
        end.
  - apply Nat.ltb_lt in Hcond. unfold collect.
    destruct (success result), (strict b); simpl; lia.
  - lia.
Qed.

Lemma run_bounded (es : list event) (s s' : state) :
  run b outcome es s = Some s' ->
  length es + stepsBound b s' <= stepsBound b s.
Proof.
  revert s. induction es as [|e es IH]; intros s Hrun; simpl in Hrun.
  - injection Hrun as <-. simpl. lia.
  - destruct (step b outcome e s) as [s1|] eqn:Hstep; [|discriminate].
    apply step_decreases in Hstep. apply IH in Hrun. simpl. lia.
Qed.

(** *** No reachable state is stuck *)

Lemma someone_or_nobody (P : pc -> bool) (gs : list goroutine) :
  (exists i g, gs !! i = Some g /\ P (at_ g) = true) \/
  Forall (fun g => P (at_ g) = false) gs.
Proof.
  induction gs as [|a gs [(i & g & Hi & Hp)|IH]].
  - right. constructor.
  - left. exists (S i), g. auto.
  - destruct (P (at_ a)) eqn:Ha.
    + left. exists 0, a. auto.
    + right. now constructor.
Qed.

Lemma count_nobody (P : pc -> bool) (gs : list goroutine) :
  Forall (fun g => P (at_ g) = false) gs -> count P gs = 0.
Proof.
  unfold count. induction 1 as [|a gs Ha _ IH]; simpl; [reflexivity|].
  now rewrite Ha.
Qed.

Lemma count_someone (P : pc -> bool) (gs : list goroutine) (i : nat)
    (g : goroutine) :
  gs !! i = Some g -> P (at_ g) = true -> 0 < count P gs.
Proof.
  unfold count. revert i. induction gs as [|a gs IH]; intros [|i] Hi Hp;
    simpl in *; try discriminate.
  - injection Hi as ->. rewrite Hp. simpl. lia.
  - specialize (IH i Hi Hp). destruct (P (at_ a)); simpl; lia.
Qed.

Lemma sentResults_all (gs : list goroutine) :
  Forall (fun g => hasSent (at_ g) <> None) gs ->
  length (sentResults gs) = length gs.
Proof.
  induction 1 as [|a gs Ha _ IH]; simpl; [reflexivity|].
  destruct (hasSent (at_ a)); [simpl; lia|contradiction].
Qed.

Lemma all_sent (gs : list goroutine) :
  length (sentResults gs) = length gs ->
  Forall (fun g => hasSent (at_ g) <> None) gs.
Proof.
  induction gs as [|a gs IH]; simpl; intros Hlen; [constructor|].
  pose proof (sentResults_length gs).
  destruct (hasSent (at_ a)) eqn:Ha; simpl in Hlen; [|lia].
  constructor; [congruence|]. apply IH. lia.
Qed.

Lemma tasks_length : length (tasks b) = totalDeps b.
Proof.
  unfold tasks, totalDeps. now rewrite length_app, !length_imap.
Qed.

Lemma goroutines_length (s : state) :
  resultsInv b s -> length (goroutines s) = totalDeps b.
Proof.
  intros [Hargs _]. rewrite <- tasks_length, <- Hargs. now rewrite length_map.
Qed.

Lemma worker_step (s : state) (e : event) (i : nat) (g : goroutine)
    (completed : nat) (failedDeps : list string) :
  main s = Collecting completed failedDeps ->
  worker e = Some i -> goroutines s !! i = Some g ->
  step b outcome e s = stepWorker b outcome i g e s.
Proof.
  intros Hmain He Hg. unfold step. now rewrite Hmain, He, Hg.
Qed.

Lemma progress (s : state) (completed : nat) (failedDeps : list string) :
  reachable b outcome s -> main s = Collecting completed failedDeps ->
  exists e s', step b outcome e s = Some s'.
Proof.
  intros Hreach Hmain.
  pose proof (permitsInv_reachable s Hreach) as [Hpermits Hmax].
  pose proof (mutexInv_reachable s Hreach) as Hmutex.
  pose proof (resultsInv_reachable s Hreach) as Hres.
  pose proof (goroutines_length s Hres) as Hlen.
  destruct Hres as [_ Hperm].
  pose proof (mainInv_reachable s Hreach) as Hmi.
  unfold mainInv in Hmi. rewrite Hmain in Hmi. destruct Hmi as (Hc & Hle & _).
  destruct (completed <? totalDeps b) eqn:Hcond.
  2:{ exists Summary. unfold step, stepMain. rewrite Hmain. simpl.
      rewrite Hcond. eauto. }
  apply Nat.ltb_lt in Hcond.
  destruct (results s) as [|result rest] eqn:Hresults.
  2:{ exists Receive. unfold step, stepMain. rewrite Hmain. simpl.
      rewrite Hresults. apply Nat.ltb_lt in Hcond. rewrite Hcond. eauto. }
  apply Permutation_length in Hperm. rewrite app_nil_r in Hperm.
  destruct (someone_or_nobody (stage 4) (goroutines s))
    as [(i & g & Hg & Hp)|No4].
  { exists (Wait i). rewrite (worker_step s (Wait i) i g _ _ Hmain eq_refl Hg).
    unfold stepWorker. destruct (at_ g); try discriminate Hp.
    destruct (installPackageParallel_report _ _ _ _). eauto. }
  destruct (someone_or_nobody (stage 3) (goroutines s))
    as [(i & g & Hg & Hp)|No3].
  { exists (Unlock i). rewrite (worker_step s (Unlock i) i g _ _ Hmain eq_refl Hg).
    unfold stepWorker. destruct (at_ g); try discriminate Hp. eauto. }
  destruct (someone_or_nobody (stage 2) (goroutines s))
    as [(i & g & Hg & Hp)|No2].
  { exists (Send i). rewrite (worker_step s (Send i) i g _ _ Hmain eq_refl Hg).
    unfold stepWorker. destruct (at_ g); try discriminate Hp.
    rewrite Hresults. simpl.
    destruct (Nat.ltb_spec 0 (totalDeps b)); [eauto|lia]. }
  destruct (someone_or_nobody (stage 1) (goroutines s))
    as [(i & g & Hg & Hp)|No1].
  { exists (Release i). rewrite (worker_step s (Release i) i g _ _ Hmain eq_refl Hg).
    unfold stepWorker. destruct (at_ g) eqn:Hat; try discriminate Hp.
    assert (0 < count holdsPermit (goroutines s)) as Hpos
      by (apply (count_someone _ _ i g Hg); now rewrite Hat).
    destruct (semaphore s); [lia|eauto]. }
  destruct (someone_or_nobody (stage 5) (goroutines s))
    as [(i & g & Hg & Hp)|No5].
  { exists (Start i). rewrite (worker_step s (Start i) i g _ _ Hmain eq_refl Hg).
    unfold stepWorker. destruct (at_ g); try discriminate Hp.
    unfold mutexInv in Hmutex.
    destruct (useBun b); [eauto|].
    rewrite count_nobody in Hmutex.
    - destruct (npmMutex s); [discriminate|eauto].
    - rewrite Forall_forall in *. intros x Hx.
      specialize (No4 x Hx). specialize (No3 x Hx).
      unfold stage in *. destruct (at_ x); simpl in *; congruence. }
  destruct (someone_or_nobody (stage 6) (goroutines s))
    as [(i & g & Hg & Hp)|No6].
  { exists (Acquire i). rewrite (worker_step s (Acquire i) i g _ _ Hmain eq_refl Hg).
    unfold stepWorker. destruct (at_ g); try discriminate Hp.
    rewrite count_nobody in Hpermits.
    - rewrite <- Hpermits.
      assert (0 < maxConcurrent b) as Hcap
        by (unfold maxConcurrent; destruct (totalDeps b <? 4); lia).
      destruct (Nat.ltb_spec 0 (maxConcurrent b)); [eauto|lia].
    - rewrite Forall_forall in *. intros x Hx.
      specialize (No4 x Hx). specialize (No3 x Hx). specialize (No2 x Hx).
      specialize (No1 x Hx). specialize (No5 x Hx).
      unfold stage in *. destruct (at_ x); simpl in *; congruence. }
  exfalso.
  rewrite <- sentResults_all in Hlen; [lia|].
  rewrite Forall_forall in *. intros x Hx.
  specialize (No4 x Hx). specialize (No3 x Hx). specialize (No2 x Hx).
  specialize (No1 x Hx). specialize (No5 x Hx). specialize (No6 x Hx).
  unfold stage in *. destruct (at_ x); simpl in *; congruence.
Qed.

Lemma completes (s : state) :
  reachable b outcome s ->
  exists es s',
    run b outcome es s = Some s' /\
    forall completed failedDeps, main s' <> Collecting completed failedDeps.
Proof.
  remember (stepsBound b s) as n eqn:Hn. revert s Hn.
  induction n as [n IH] using lt_wf_ind. intros s -> Hreach.
  destruct (main s) as [completed failedDeps| |] eqn:Hmain.
  - destruct (progress s _ _ Hreach Hmain) as (e & s1 & Hstep).
    destruct (IH (stepsBound b s1) (step_decreases _ _ _ Hstep) s1 eq_refl)
      as (es & s' & Hrun & Hdone).
    { econstructor; eassumption. }
    exists (e :: es), s'. simpl. rewrite Hstep. auto.
  - exists [], s. simpl. split; [reflexivity|]. intros. now rewrite Hmain.
  - exists [], s. simpl. split; [reflexivity|]. intros. now rewrite Hmain.
Qed.

(** *** The results at the end *)

Lemma sentResults_final (o : nat -> finished) (gs : list goroutine) :
  (forall i g, gs !! i = Some g ->
     exists ok, hasSent (at_ g) = Some ok /\ ok = errNil (o i)) ->
  sentResults gs = imap (fun i g => resultOf (args g) (errNil (o i))) gs.
Proof.
  revert o. induction gs as [|a gs IH]; intros o Hall; simpl; [reflexivity|].
  destruct (Hall 0 a eq_refl) as (ok & -> & ->). f_equal.
  apply (IH (fun i => o (S i))). intros i g Hi. exact (Hall (S i) g Hi).
Qed.

Lemma all_sent_final (s : state) :
  reachable b outcome s ->
  length (sentResults (goroutines s)) = totalDeps b ->
  sentResults (goroutines s) = finalResults b outcome.
Proof.
  intros Hreach Hlen.
  pose proof (resultsInv_reachable s Hreach) as Hres.
  pose proof (goroutines_length s Hres) as Hgs. destruct Hres as [Hargs _].
  pose proof (outcomeInv_reachable s Hreach) as Hout.
  rewrite <- Hgs in Hlen. apply all_sent in Hlen.
  unfold finalResults. rewrite <- Hargs.
  change (map args (goroutines s)) with (args <$> goroutines s).
  rewrite imap_fmap. apply sentResults_final.
  intros i g Hi.
  rewrite Forall_forall in Hlen.
  assert (Hin : elem_of g (goroutines s)) by (apply list_elem_of_lookup; eauto).
  specialize (Hlen g Hin).
  destruct (hasSent (at_ g)) as [ok|] eqn:Hsent; [|contradiction].
  exists ok. split; [reflexivity|].
  apply (Hout i g ok Hi). destruct (at_ g); simpl in *; congruence.
Qed.

Lemma failed_plus_succeeded (rs : list installResult) :
  length (failedLabels rs) + succeeded rs = length rs.
Proof.
  unfold failedLabels, succeeded. rewrite length_map.
  induction rs as [|r rs IH]; simpl; [reflexivity|].
  destruct (success r); simpl; lia.
Qed.

Lemma filter_length_le {A} (P Q : A -> bool) (l : list A) :
  (forall x, P x = true -> Q x = true) ->
  length (List.filter P l) <= length (List.filter Q l).
Proof.
  intros HPQ. induction l as [|a l IH]; simpl; [lia|].
  destruct (P a) eqn:Ha.
  - rewrite (HPQ a Ha). simpl. lia.
  - destruct (Q a); simpl; lia.
Qed.

Lemma stateAfter_reachable (es : list event) :
  reachable b outcome (stateAfter b outcome es).
Proof.
  unfold stateAfter.
  destruct (run b outcome es (init b)) as [s|] eqn:Hrun.
  - eapply run_reachable; [constructor|eassumption].
  - constructor.
Qed.

(** ** The permit pool *)

(** C4. In every reachable state of a batch of N packages the goroutines
    inside [installPackageParallel] are among those that hold a permit,
    these are as many as the permits taken, and at most min(4, N) permits
    are taken.  A goroutine that has sent its result gives its permit
    back, whatever the result. *)
Theorem permit_pool_bound (s : state) :
  reachable b outcome s ->
  maxConcurrent b = Nat.min 4 (totalDeps b) /\
  count installing (goroutines s) <= count holdsPermit (goroutines s) /\
  count holdsPermit (goroutines s) = semaphore s /\
  semaphore s <= Nat.min 4 (totalDeps b) /\
  (forall i g ok,
     goroutines s !! i = Some g -> at_ g = AtRelease ok ->
     (forall code, main s <> Exited code) ->
     exists s', step b outcome (Release i) s = Some s' /\
                S (semaphore s') = semaphore s /\
                goroutines s' !! i = Some {| args := args g; at_ := Finished ok |}).
Proof.
  intros Hreach.
  destruct (permitsInv_reachable s Hreach) as [Hcount Hle].
  assert (Hmax : maxConcurrent b = Nat.min 4 (totalDeps b)).
  { unfold maxConcurrent. destruct (Nat.ltb_spec (totalDeps b) 4); lia. }
  split; [exact Hmax|]. split.
  { unfold count. apply filter_length_le. intros g.
    destruct (at_ g); simpl; auto. }
  split; [exact Hcount|]. split; [lia|].
  intros i g ok Hg Hat Hlive.
  assert (0 < count holdsPermit (goroutines s)) as Hpos
    by (apply (count_someone _ _ i g Hg); now rewrite Hat).
  unfold step. destruct (main s) eqn:Hmain; try (now destruct (Hlive code));
    simpl; rewrite Hg; unfold stepWorker; rewrite Hat;
    (destruct (semaphore s) as [|n]; [lia|]);
    (eexists; split; [reflexivity|]); simpl; (split; [reflexivity|]);
    unfold moveTo; apply list_lookup_insert_eq; eapply lookup_lt_Some; eauto.
Qed.

(** ** The mutex *)

(** On the npm backend at most one subprocess is in flight. *)
Lemma npm_backend_serialized (s : state) :
  useBun b = false -> reachable b outcome s ->
  count inFlight (goroutines s) <= 1 /\ toolInFlight b "npm" s <= 1.
Proof.
  intros Hnpm Hreach.
  pose proof (mutexInv_reachable s Hreach) as Hmutex.
  unfold mutexInv in Hmutex. rewrite Hnpm in Hmutex.
  assert (count inFlight (goroutines s) <= count inCritical (goroutines s)).
  { unfold count. apply filter_length_le. intros g.
    destruct (at_ g); simpl; auto. }
  assert (toolInFlight b "npm" s <= count inFlight (goroutines s)).
  { unfold toolInFlight, count. apply filter_length_le. intros g Hg.
    now apply andb_true_iff in Hg. }
  destruct (npmMutex s); simpl in Hmutex; lia.
Qed.

(** On the fast backend the mutex is never taken. *)
Lemma bun_backend_unlocked (s : state) :
  useBun b = true -> reachable b outcome s -> npmMutex s = false.
Proof.
  intros Hbun Hreach. pose proof (mutexInv_reachable s Hreach) as Hmutex.
  unfold mutexInv in Hmutex. now rewrite Hbun in Hmutex.
Qed.

(** ** Strict mode *)

(** C5. When the collection loop receives a failure in strict mode, all
    results received before were successes, the two lines of the abort
    are printed, the second with the name of the package and its
    " (dev)" tag, and the process exits with code 1: no goroutine is
    touched and no further step is taken.  Without strict mode the loop
    goes on, and the process exits in strict mode only. *)
Theorem strict_first_failure_exits (s : state) (result : installResult)
    (rest : list installResult) (completed : nat) (failedDeps : list string) :
  reachable b outcome s ->
  main s = Collecting completed failedDeps ->
  results s = result :: rest ->
  success result = false ->
  (exists s',
     step b outcome Receive s = Some s' /\
     received s' = received s ++ [result] /\
     results s' = rest /\
     goroutines s' = goroutines s /\
     if strict b then
       Forall (fun r => success r = true) (received s) /\
       main s' = Exited 1 /\
       output s' = output s ++
         [MsgStrictModeFailure;
          MsgFailedPackage
            (String.append (packageName result)
                           (if isDev result then " (dev)" else ""))] /\
       forall e, step b outcome e s' = None
     else
       main s' = Collecting (S completed) (failedDeps ++ [failedLabel result]) /\
       output s' = output s) /\
  (forall s0 code,
     reachable b outcome s0 -> main s0 = Exited code ->
     strict b = true /\ code = 1%Z).
Proof.
  intros Hreach Hmain Hresults Hfail. split.
  - pose proof (mainInv_reachable s Hreach) as Hmi.
    unfold mainInv in Hmi. rewrite Hmain in Hmi.
    destruct Hmi as (Hc & _ & _ & Hstrict).
    pose proof (resultsInv_reachable s Hreach) as Hres.
    pose proof (goroutines_length s Hres) as Hlen.
    destruct Hres as [_ Hperm]. apply Permutation_length in Hperm.
    rewrite length_app, Hresults in Hperm. simpl in Hperm.
    pose proof (sentResults_length (goroutines s)) as Hsent.
    assert (Hcond : (completed <? totalDeps b) = true)
      by (apply Nat.ltb_lt; lia).
    exists (collect b result completed failedDeps s).
    split.
    { unfold step, stepMain. rewrite Hmain. simpl.
      now rewrite Hcond, Hresults. }
    destruct (collect_frame result completed failedDeps s)
      as (Hg & _ & _ & Hr & Hrec).
    rewrite Hresults in Hr. simpl in Hr.
    repeat (split; [assumption|]).
    unfold collect. rewrite Hfail.
    destruct (strict b) eqn:Hs; simpl.
    + repeat split; auto.
    + split; reflexivity.
  - intros s0 code Hreach0 Hexit.
    pose proof (mainInv_reachable s0 Hreach0) as Hmi.
    unfold mainInv in Hmi. rewrite Hexit in Hmi.
    destruct Hmi as (-> & Hs & _). auto.
Qed.

(** ** The report *)

(** C7. Without strict mode no state in which the loop still collects
    is stuck, every reachable state can be run to the summary, and no
    schedule is longer than [stepsBound].  At the summary
    the loop has received exactly N results, which are the results of
    the N tasks in some order; [failedDeps] holds the labels of the
    failed ones (name and " (dev)" tag) in the order of reception; and the
    failed and the succeeded ones add up to N. *)
Theorem non_strict_report :
  strict b = false ->
  (forall s completed failedDeps,
     reachable b outcome s -> main s = Collecting completed failedDeps ->
     exists e s', step b outcome e s = Some s') /\
  (forall s, reachable b outcome s ->
     exists es s' failedDeps,
       run b outcome es s = Some s' /\ main s' = Summarized failedDeps) /\
  (forall es s', run b outcome es (init b) = Some s' ->
     length es <= stepsBound b (init b)) /\
  (forall s failedDeps,
     reachable b outcome s -> main s = Summarized failedDeps ->
     length (received s) = totalDeps b /\
     Permutation (received s) (finalResults b outcome) /\
     failedDeps = failedLabels (received s) /\
     length failedDeps + succeeded (received s) = totalDeps b).
Proof.
  intros Hstrict. split; [|split; [|split]].
  - intros s completed failedDeps. apply progress.
  - intros s Hreach.
    destruct (completes s Hreach) as (es & s' & Hrun & Hdone).
    pose proof (run_reachable es s s' Hreach Hrun) as Hreach'.
    pose proof (mainInv_reachable s' Hreach') as Hmi. unfold mainInv in Hmi.
    destruct (main s') as [c f|f|code] eqn:Hmain.
    + now destruct (Hdone c f).
    + exists es, s', f. auto.
    + destruct Hmi as (_ & Hs & _). congruence.
  - intros es s' Hrun. pose proof (run_bounded es _ _ Hrun). lia.
  - intros s failedDeps Hreach Hmain.
    pose proof (mainInv_reachable s Hreach) as Hmi.
    unfold mainInv in Hmi. rewrite Hmain in Hmi. destruct Hmi as (Hlen & Hf).
    pose proof (resultsInv_reachable s Hreach) as Hres.
    pose proof (goroutines_length s Hres) as Hgs. destruct Hres as [_ Hperm].
    pose proof (sentResults_length (goroutines s)) as Hsent.
    pose proof (Permutation_length Hperm) as Hpl.
    rewrite length_app in Hpl.
    assert (Hnil : results s = [])
      by (destruct (results s); [reflexivity|simpl in Hpl; lia]).
    rewrite Hnil, app_nil_r in Hperm. rewrite Hnil in Hpl. simpl in Hpl.
    rewrite all_sent_final in Hperm by (assumption || lia).
    repeat split; try assumption.
    rewrite Hf, failed_plus_succeeded. assumption.
Qed.

End BatchFacts.

(** ** No package at all *)

Section ZeroPackages.
Context `{StringsPkg}.
Variable outcome : nat -> finished.

(** C9. A batch without packages starts no goroutine; the collection
    loop is not entered (no receive is possible, none is waited for); the
    summary is the only step, it is enabled at once and reports nothing
    failed and 0 of 0 installed; no other state is ever reached. *)
Theorem zero_packages_no_op (dir : string) (bun strictMode : bool) :
  let b := {| projectDir := dir; useBun := bun; strict := strictMode;
              deps := []; devDeps := [] |} in
  let done := {| goroutines := []; semaphore := 0; npmMutex := false;
                 results := []; main := Summarized [];
                 output := [MsgAllInstalled; MsgInstalledCount 0 0];
                 received := [] |} in
  totalDeps b = 0 /\
  goroutines (init b) = [] /\
  step b outcome Receive (init b) = None /\
  step b outcome Summary (init b) = Some done /\
  (forall s, reachable b outcome s -> s = init b \/ s = done).
Proof.
  intros b done. repeat split; try reflexivity.
  induction 1 as [|s e s' _ IH Hstep]; [now left|].
  destruct IH as [-> | ->].
  - destruct e; try discriminate Hstep.
    right. now injection Hstep as <-.
  - destruct e; discriminate Hstep.
Qed.

End ZeroPackages.

(** ** More on the goroutines *)

Ltac all_steps Hstep :=
  unfold step in Hstep;
  let Hmain := fresh "Hmain" in
  destruct (main _) as [completed failedDeps|failedDeps|code] eqn:Hmain in Hstep;
  [ | | discriminate Hstep ];
  match type of Hstep with
  | context [worker ?e] =>
      destruct e as [i|i|i|i|i|i| |]; simpl in Hstep
  end;
  try (unfold stepMain in Hstep; rewrite Hmain in Hstep; try discriminate Hstep);
  try match type of Hstep with
      | context [results ?s] =>
          let E := fresh "Hresults" in
          destruct (completed <? totalDeps _) eqn:Hcond in Hstep;
          [|discriminate Hstep];
          destruct (results s) as [|result rest] eqn:E in Hstep;
          [discriminate Hstep|]
      end;
  try (let Hg := fresh "Hg" in let Hat := fresh "Hat" in
       match type of Hstep with
       | context [goroutines ?s !! ?i] =>
           destruct (goroutines s !! i) as [g|] eqn:Hg in Hstep;
           [|discriminate Hstep];
           unfold stepWorker in Hstep;
           destruct (at_ g) eqn:Hat in Hstep; try discriminate Hstep
       end);
  repeat match type of Hstep with
         | (if ?c then _ else _) = Some _ =>
             let E := fresh "Hcond" in destruct c eqn:E; try discriminate Hstep
         | (let (_, _) := ?x in _) = Some _ =>
             let E := fresh "Hreport" in destruct x eqn:E
         | match ?x with _ => _ end = Some _ =>
             let E := fresh "Hcase" in destruct x eqn:E; try discriminate Hstep
         end;
  injection Hstep as <-.

Section MoreBatchFacts.
Context `{StringsPkg}.
Variable b : batch.
Variable outcome : nat -> finished.

Lemma sentResults_unsent (gs : list goroutine) (i : nat) (g : goroutine) :
  gs !! i = Some g -> hasSent (at_ g) = None ->
  length (sentResults gs) < length gs.
Proof.
  revert i. induction gs as [|a gs IH]; intros [|i] Hi Hg; simpl in *;
    try discriminate.
  - injection Hi as ->. rewrite Hg. pose proof (sentResults_length gs). lia.
  - specialize (IH i Hi Hg). destruct (hasSent (at_ a)); simpl; lia.
Qed.

(** X1. A goroutine that has its result to send is never blocked on the
    [results] channel: the buffer, of capacity [totalDeps], has room. *)
Theorem send_never_blocks (s : state) (i : nat) (g : goroutine) (ok : bool) :
  reachable b outcome s ->
  goroutines s !! i = Some g -> at_ g = AtSend ok ->
  (forall code, main s <> Exited code) ->
  length (results s) < totalDeps b /\
  exists s',
    step b outcome (Send i) s = Some s' /\
    results s' = results s ++ [resultOf (args g) ok].
Proof.
  intros Hreach Hg Hat Hlive.
  pose proof (resultsInv_reachable b outcome s Hreach) as Hres.
  pose proof (goroutines_length b s Hres) as Hlen.
  destruct Hres as [_ Hperm]. apply Permutation_length in Hperm.
  rewrite length_app in Hperm.
  assert (Hlt : length (sentResults (goroutines s)) < length (goroutines s)).
  { apply (sentResults_unsent _ i g Hg). now rewrite Hat. }
  assert (Hroom : length (results s) < totalDeps b) by lia.
  split; [exact Hroom|].
  unfold step. destruct (main s) eqn:Hmain; try (now destruct (Hlive code));
    simpl; rewrite Hg; unfold stepWorker; rewrite Hat;
    apply Nat.ltb_lt in Hroom; rewrite Hroom; eauto.
Qed.

(** The received results are those of subprocesses. *)
Lemma sentResults_success (gs : list goroutine) :
  (forall i g ok, gs !! i = Some g -> hasSent (at_ g) = Some ok -> ok = true) ->
  Forall (fun r => success r = true) (sentResults gs).
Proof.
  induction gs as [|a gs IH]; intros Hall; simpl; [constructor|].
  assert (Hrest : Forall (fun r => success r = true) (sentResults gs)).
  { apply IH. intros i g ok Hi. exact (Hall (S i) g ok Hi). }
  destruct (hasSent (at_ a)) as [ok|] eqn:Ha; [|exact Hrest].
  constructor; [|exact Hrest]. simpl. exact (Hall 0 a ok eq_refl Ha).
Qed.

Lemma received_success (s : state) :
  (forall i, errNil (outcome i) = true) ->
  reachable b outcome s ->
  Forall (fun r => success r = true) (received s).
Proof.
  intros Hall Hreach.
  destruct (resultsInv_reachable b outcome s Hreach) as [_ Hperm].
  pose proof (outcomeInv_reachable b outcome s Hreach) as Hout.
  assert (Hsent : Forall (fun r => success r = true)
                         (sentResults (goroutines s))).
  { apply sentResults_success. intros i g ok Hi Hs.
    rewrite (Hout i g ok Hi); [apply Hall|].
    destruct (at_ g); simpl in *; congruence. }
  rewrite <- Hperm in Hsent. apply Forall_app in Hsent. tauto.
Qed.

Lemma failedLabels_success (rs : list installResult) :
  Forall (fun r => success r = true) rs -> failedLabels rs = [].
Proof.
  unfold failedLabels. induction 1 as [|r rs Hr _ IH]; simpl; [reflexivity|].
  now rewrite Hr.
Qed.

(** X2. When every subprocess succeeds the process never exits, strict
    mode or not; the summary lists no failure, and it can be reached from
    every reachable state. *)
Theorem all_succeed_all_installed :
  (forall i, errNil (outcome i) = true) ->
  forall s, reachable b outcome s ->
    (forall code, main s <> Exited code) /\
    (forall failedDeps, main s = Summarized failedDeps -> failedDeps = []) /\
    exists es s',
      run b outcome es s = Some s' /\ main s' = Summarized [].
Proof.
  intros Hall.
  assert (Hsafe : forall s, reachable b outcome s ->
            (forall code, main s <> Exited code) /\
            (forall failedDeps, main s = Summarized failedDeps ->
                                failedDeps = [])).
  { intros s Hreach.
    pose proof (received_success s Hall Hreach) as Hrec.
    pose proof (mainInv_reachable b outcome s Hreach) as Hmi.
    unfold mainInv in Hmi. split.
    - intros code Hmain. rewrite Hmain in Hmi.
      destruct Hmi as (_ & _ & before & result & Heq & _ & Hfail).
      rewrite Heq in Hrec. apply Forall_app in Hrec. destruct Hrec as [_ Hr].
      inversion Hr; subst. congruence.
    - intros f Hmain. rewrite Hmain in Hmi. destruct Hmi as (_ & ->).
      now apply failedLabels_success. }
  intros s Hreach. destruct (Hsafe s Hreach) as [Hlive Hnone].
  split; [exact Hlive|]. split; [exact Hnone|].
  destruct (completes b outcome s Hreach) as (es & s' & Hrun & Hdone).
  pose proof (run_reachable b outcome es s s' Hreach Hrun) as Hreach'.
  destruct (Hsafe s' Hreach') as [Hlive' Hnone'].
  exists es, s'. split; [exact Hrun|].
  destruct (main s') as [c f|f|code] eqn:Hmain.
  - now destruct (Hdone c f).
  - now rewrite (Hnone' f eq_refl).
  - now destruct (Hlive' code).
Qed.

End MoreBatchFacts.

Section StrictFacts.
Context `{StringsPkg}.
Variable b : batch.
Variable outcome : nat -> finished.

Lemma strictInv_step (s : state) (e : event) (s' : state) :
  step b outcome e s = Some s' -> strictInv b s -> strictInv b s'.
Proof.
  intros Hstep Hinv Hs. specialize (Hinv Hs).
  all_steps Hstep; simpl; rewrite Hmain in Hinv; try rewrite Hmain;
    try assumption.
  unfold collect. rewrite Hs.
  destruct (success result) eqn:Hok; simpl; [|exact I].
  apply Forall_app. split; [assumption|]. now constructor.
Qed.

Lemma strictInv_reachable (s : state) : reachable b outcome s -> strictInv b s.
Proof.
  induction 1 as [|s e s' _ IH Hstep].
  - intros _. simpl. constructor.
  - eapply strictInv_step; eauto.
Qed.

Lemma summarized_all_received (s : state) (failedDeps : list string) :
  reachable b outcome s -> main s = Summarized failedDeps ->
  Permutation (received s) (finalResults b outcome).
Proof.
  intros Hreach Hmain.
  pose proof (mainInv_reachable b outcome s Hreach) as Hmi.
  unfold mainInv in Hmi. rewrite Hmain in Hmi. destruct Hmi as (Hlen & _).
  pose proof (resultsInv_reachable b outcome s Hreach) as Hres.
  pose proof (goroutines_length b s Hres) as Hgs. destruct Hres as [_ Hperm].
  pose proof (sentResults_length (goroutines s)) as Hsent.
  pose proof (Permutation_length Hperm) as Hpl.
  rewrite length_app in Hpl.
  assert (Hnil : results s = [])
    by (destruct (results s); [reflexivity|simpl in Hpl; lia]).
  rewrite Hnil, app_nil_r in Hperm. rewrite Hnil in Hpl. simpl in Hpl.
  rewrite (all_sent_final b outcome s Hreach) in Hperm by lia.
  exact Hperm.
Qed.

(** X3. In strict mode the summary is reached only if every package was
    installed; as soon as one subprocess fails, every reachable state can
    be run to the exit with code 1. *)
Theorem strict_summary_sound :
  strict b = true ->
  (forall s failedDeps,
     reachable b outcome s -> main s = Summarized failedDeps ->
     failedDeps = [] /\
     forall i, i < totalDeps b -> errNil (outcome i) = true) /\
  ((exists i, i < totalDeps b /\ errNil (outcome i) = false) ->
   forall s, reachable b outcome s ->
     exists es s', run b outcome es s = Some s' /\ main s' = Exited 1).
Proof.
  intros Hs.
  assert (Hsound : forall s failedDeps,
            reachable b outcome s -> main s = Summarized failedDeps ->
            failedDeps = [] /\
            forall i, i < totalDeps b -> errNil (outcome i) = true).
  { intros s f Hreach Hmain.
    pose proof (strictInv_reachable s Hreach Hs) as Hall.
    rewrite Hmain in Hall.
    pose proof (mainInv_reachable b outcome s Hreach) as Hmi.
    unfold mainInv in Hmi. rewrite Hmain in Hmi. destruct Hmi as (_ & ->).
    split; [now apply failedLabels_success|].
    intros i Hi.
    rewrite (summarized_all_received s _ Hreach Hmain) in Hall.
    rewrite <- (tasks_length b) in Hi.
    destruct (lookup_lt_is_Some_2 (tasks b) i Hi) as [t Ht].
    rewrite Forall_forall in Hall.
    specialize (Hall (resultOf t (errNil (outcome i)))).
    apply Hall. apply list_elem_of_lookup. exists i.
    unfold finalResults. rewrite list_lookup_imap, Ht. reflexivity. }
  split; [exact Hsound|].
  intros (i & Hi & Hfail) s Hreach.
  destruct (completes b outcome s Hreach) as (es & s' & Hrun & Hdone).
  pose proof (run_reachable b outcome es s s' Hreach Hrun) as Hreach'.
  exists es, s'. split; [exact Hrun|].
  pose proof (mainInv_reachable b outcome s' Hreach') as Hmi.
  unfold mainInv in Hmi.
  destruct (main s') as [c f|f|code] eqn:Hmain.
  - now destruct (Hdone c f).
  - destruct (Hsound s' f Hreach' Hmain) as [_ Hok].
    rewrite (Hok i Hi) in Hfail. discriminate.
  - now destruct Hmi as (-> & _).
Qed.

(** X4. No result is lost or received twice: the ones received and the
    ones waiting in the channel are, up to their order, the ones sent;
    the goroutines keep their tasks; and there are never more than
    [totalDeps] results. *)
Theorem results_conserved (s : state) :
  reachable b outcome s ->
  Permutation (received s ++ results s) (sentResults (goroutines s)) /\
  map args (goroutines s) = tasks b /\
  length (received s) + length (results s) <= totalDeps b.
Proof.
  intros Hreach.
  pose proof (resultsInv_reachable b outcome s Hreach) as Hres.
  pose proof (goroutines_length b s Hres) as Hgs.
  destruct Hres as [Hargs Hperm].
  split; [exact Hperm|]. split; [exact Hargs|].
  apply Permutation_length in Hperm. rewrite length_app in Hperm.
  pose proof (sentResults_length (goroutines s)). lia.
Qed.

Lemma count_unique (P : pc -> bool) (gs : list goroutine) :
  count P gs <= 1 ->
  forall i j gi gj,
    gs !! i = Some gi -> gs !! j = Some gj ->
    P (at_ gi) = true -> P (at_ gj) = true -> i = j.
Proof.
  unfold count. induction gs as [|a gs IH]; intros Hle i j gi gj Hi Hj Pi Pj.
  - destruct i; discriminate.
  - simpl in Hle. destruct i as [|i], j as [|j]; simpl in Hi, Hj.
    + reflexivity.
    + injection Hi as ->. rewrite Pi in Hle. simpl in Hle.
      pose proof (count_someone P gs j gj Hj Pj) as Hpos.
      unfold count in Hpos. lia.
    + injection Hj as ->. rewrite Pj in Hle. simpl in Hle.
      pose proof (count_someone P gs i gi Hi Pi) as Hpos.
      unfold count in Hpos. lia.
    + f_equal. apply (IH ltac:(destruct (P (at_ a)); simpl in Hle; lia)
                         i j gi gj Hi Hj Pi Pj).
Qed.

(** X5. On the npm backend the mutex is locked exactly while one
    goroutine is between [Lock] and [Unlock], at most one npm subprocess
    is in flight, and two goroutines whose subprocess is in flight are
    the same goroutine. *)
Theorem npm_subprocesses_exclusive (s : state) :
  useBun b = false -> reachable b outcome s ->
  count inCritical (goroutines s) = Nat.b2n (npmMutex s) /\
  toolInFlight b "npm" s <= 1 /\
  forall i j gi gj,
    goroutines s !! i = Some gi -> goroutines s !! j = Some gj ->
    at_ gi = InRun -> at_ gj = InRun -> i = j.
Proof.
  intros Hnpm Hreach.
  pose proof (mutexInv_reachable b outcome s Hreach) as Hmutex.
  unfold mutexInv in Hmutex. rewrite Hnpm in Hmutex.
  assert (Hflight : count inFlight (goroutines s) <= 1).
  { assert (count inFlight (goroutines s) <= count inCritical (goroutines s)).
    { unfold count. apply filter_length_le. intros g.
      destruct (at_ g); simpl; auto. }
    destruct (npmMutex s); simpl in Hmutex; lia. }
  split; [exact Hmutex|]. split.
  - assert (toolInFlight b "npm" s <= count inFlight (goroutines s)).
    { unfold toolInFlight, count. apply filter_length_le. intros g Hg.
      now apply andb_true_iff in Hg. }
    lia.
  - intros i j gi gj Hi Hj Hgi Hgj.
    apply (count_unique inFlight (goroutines s) Hflight i j gi gj Hi Hj).
    + now rewrite Hgi.
    + now rewrite Hgj.
Qed.

End StrictFacts.

(** ** More on the diagnostic and on [.config] *)

Section DiagnosticMore.
Context `{StringsPkg}.

Lemma In_firstn {A} (n : nat) (l : list A) (x : A) :
  In x (firstn n l) -> In x l.
Proof.
  revert l. induction n as [|n IH]; intros [|a l]; simpl; try tauto.
  intros [->|Hx]; auto.
Qed.

(** X6. For a non-empty stderr every line shown is a trimmed non-empty
    line of stderr; nothing is shown only if stderr has no such line; and
    when some line has a marker and no "warn", only such lines are
    shown. *)
Theorem diagnostic_from_stderr (errOutput : string) :
  errOutput <> "" ->
  (forall line, In line (diagnostic errOutput) ->
                In line (trimmedLines errOutput)) /\
  (diagnostic errOutput = [] <-> trimmedLines errOutput = []) /\
  ((exists line, In line (trimmedLines errOutput) /\ isErrorLine line = true) ->
   Forall (fun line => isErrorLine line = true) (diagnostic errOutput)).
Proof.
  intros Hne.
  assert (E : diagnostic errOutput = spec_diagnostic errOutput).
  { unfold diagnostic. rewrite (nonEmpty_true _ Hne).
    now apply errorLinesOf_spec. }
  rewrite E. unfold spec_diagnostic.
  destruct (List.filter isErrorLine (trimmedLines errOutput))
    as [|m ms] eqn:Hm.
  - split; [|split].
    + intros line Hin. now do 2 apply In_firstn in Hin.
    + destruct (trimmedLines errOutput); simpl; split; congruence.
    + intros (line & Hin & Herr).
      assert (Hf : In line (List.filter isErrorLine (trimmedLines errOutput)))
        by (apply filter_In; auto).
      rewrite Hm in Hf. destruct Hf.
  - split; [|split].
    + intros line Hin. apply In_firstn in Hin. rewrite <- Hm in Hin.
      now apply filter_In in Hin.
    + split; [discriminate|].
      intros Hnil. rewrite Hnil in Hm. discriminate.
    + intros _. apply List.Forall_forall. intros line Hin.
      apply In_firstn in Hin. rewrite <- Hm in Hin.
      now apply filter_In in Hin.
Qed.

End DiagnosticMore.

Section ConfigFacts.
Context `{StringsPkg}.

Lemma parseConfig_block (block rest : list string) (inDeps inDevDeps : bool)
    (ds dds : list string) :
  Forall (fun line => isHeader (TrimSpace line) = false) block ->
  parseConfig (block ++ rest) inDeps inDevDeps ds dds =
  parseConfig rest inDeps inDevDeps
    (if inDeps then ds ++ configItems block else ds)
    (if inDeps then dds
     else if inDevDeps then dds ++ configItems block else dds).
Proof.
  intros Hblock. revert ds dds.
  induction Hblock as [|line block Hline _ IH]; intros ds dds.
  - unfold configItems. simpl. rewrite !app_nil_r.
    destruct inDeps, inDevDeps; reflexivity.
  - unfold isHeader in Hline. apply orb_false_iff in Hline.
    destruct Hline as [Hd Hv].
    simpl. rewrite Hd, Hv. unfold configItems in *. simpl.
    destruct (HasPrefix (TrimSpace line) "- "); simpl.
    + destruct inDeps; [|destruct inDevDeps]; rewrite IH;
        rewrite <- ?app_assoc; reflexivity.
    + apply IH.
Qed.

Lemma prefix_String (a c : ascii) (p s : string) :
  String.prefix (String a p) (String c s) = Ascii.eqb a c && String.prefix p s.
Proof.
  simpl. destruct (Ascii.ascii_dec a c) as [->|Hne].
  - now rewrite Ascii.eqb_refl.
  - apply Ascii.eqb_neq in Hne. now rewrite Hne.
Qed.

Lemma DevDeps_not_Deps (line : string) :
  HasPrefix line "DevDeps:" = true -> HasPrefix line "Deps:" = false.
Proof.
  unfold HasPrefix.
  destruct line as [|c1 [|c2 [|c3 s]]]; try discriminate;
    rewrite ?prefix_String; try (intros Hp; simpl in Hp;
      rewrite ?andb_false_r in Hp; discriminate).
  intros Hp.
  apply andb_true_iff in Hp. destruct Hp as [_ Hp].
  apply andb_true_iff in Hp. destruct Hp as [_ Hp].
  apply andb_true_iff in Hp. destruct Hp as [Hv _].
  apply Ascii.eqb_eq in Hv. subst c3.
  now rewrite !andb_false_r.
Qed.

(** X7. A [.config] made of lines without header, a "Deps:" line, a
    group, a "DevDeps:" line and a group yields the "- " lines of the two
    groups, in their order and without the mark; what precedes the first
    header is ignored. *)
Theorem parseConfig_layout
    (before depsBlock devBlock : list string) (h1 h2 : string) :
  Forall (fun line => isHeader (TrimSpace line) = false) before ->
  Forall (fun line => isHeader (TrimSpace line) = false) depsBlock ->
  Forall (fun line => isHeader (TrimSpace line) = false) devBlock ->
  HasPrefix (TrimSpace h1) "Deps:" = true ->
  HasPrefix (TrimSpace h2) "DevDeps:" = true ->
  parseConfig (before ++ h1 :: depsBlock ++ h2 :: devBlock)
              false false [] [] =
  (configItems depsBlock, configItems devBlock).
Proof.
  intros Hb Hd Hv H1 H2.
  rewrite (parseConfig_block before _ false false [] [] Hb).
  simpl. rewrite H1.
  rewrite (parseConfig_block depsBlock _ true false [] [] Hd).
  simpl.
  assert (Hnot : HasPrefix (TrimSpace h2) "Deps:" = false)
    by (apply DevDeps_not_Deps; exact H2).
  rewrite Hnot, H2.
  rewrite <- (app_nil_r devBlock) at 1.
  rewrite (parseConfig_block devBlock [] false true _ [] Hv).
  reflexivity.
Qed.

End ConfigFacts.


(** ** More on the entry points *)

Lemma append_empty (s : string) : String.append s "" = s.
Proof. induction s as [|c s IH]; simpl; [reflexivity|now rewrite IH]. Qed.

Lemma filter_isRun_prints (ms : list message) (failedDeps : list string)
    (w : world) :
  List.filter isRun
    (fst (fold_right (fun m k => print m ;;; k) (ret failedDeps) ms w)) = [] /\
  snd (fold_right (fun m k => print m ;;; k) (ret failedDeps) ms w) =
    Value failedDeps.
Proof.
  induction ms as [|m ms [IH1 IH2]]; simpl; [split; reflexivity|].
  unfold bind at 1 3. unfold print at 1 3.
  remember (fold_right (fun m k => print m ;;; k) (ret failedDeps) ms w)
    as p eqn:Hp.
  destruct p as [acts r]. simpl in *.
  rewrite IH1, IH2. split; reflexivity.
Qed.

(** X8. [InstallPackage] runs one command, that of
    [installSingleDependency] for a regular dependency, on bun if bun is
    on the search path, and only if [package.json] is there and one of
    the two tools is found; it returns the name of the package as failed
    exactly when the command ends in error. *)
Theorem InstallPackage_runs_once (w : world) (packageName : string) :
  let useBun := onPath w "bun" in
  let cmd := installSingleDependency_cmd "." packageName false useBun in
  let ready :=
    match osStat w "package.json" with
    | ErrNotExist => false
    | _ => onPath w "bun" || onPath w "npm"
    end in
  List.filter isRun (fst (InstallPackage packageName w)) =
    (if ready then [Run cmd] else []) /\
  snd (InstallPackage packageName w) =
    (if ready
     then Value (if errNil (runs w cmd) then [] else [packageName])
     else Return).
Proof.
  intros useBun cmd ready. subst useBun cmd ready.
  unfold InstallPackage, installSingleDependency, requireNpm, bind, print,
    stat, lookPath, runCmd, ret, returnNow.
  destruct (osStat w "package.json"); simpl; try (split; reflexivity);
    (destruct (onPath w "bun") eqn:Hbun; simpl;
     [|destruct (onPath w "npm") eqn:Hnpm; simpl; [|split; reflexivity]]);
    match goal with
    | |- context [runs w ?c] => destruct (errNil (runs w c)) eqn:Hok
    end; simpl;
    repeat match goal with
    | |- context [if ?c then (fun _ => ([Print MsgPackageNotFound], _)) else _] =>
        destruct c; simpl
    end;
    rewrite ?append_empty; split; reflexivity.
Qed.

(** X9. Before its goroutines [InstallPackages] runs no command; the
    backend it chooses is on the search path; and with mode "n" it is npm
    and bun is not even looked for. *)
Theorem InstallPackages_backend (w : world) (packages : list string)
    (mode : string) (acts : list action) (b : batch) :
  InstallPackages packages mode w = (acts, Value b) ->
  List.filter isRun acts = [] /\
  (useBun b = true -> onPath w "bun" = true /\ mode <> "n") /\
  (useBun b = false -> onPath w "npm" = true) /\
  (mode = "n" -> useBun b = false /\ ~ In (LookPath "bun") acts).
Proof.
  unfold InstallPackages, requireNpm, bind, print, stat, lookPath, ret,
    returnNow.
  destruct (osStat w "package.json");
    (destruct (String.eqb mode "b") eqn:Hb;
     [apply String.eqb_eq in Hb; subst mode; simpl|
      destruct (String.eqb mode "n") eqn:Hn;
      [apply String.eqb_eq in Hn; subst mode; simpl|
       apply String.eqb_neq in Hb; apply String.eqb_neq in Hn]]);
    destruct (onPath w "bun") eqn:Hbun;
    destruct (onPath w "npm") eqn:Hnpm; simpl;
    intros Heq; try discriminate Heq; injection Heq as <- <-; simpl;
    repeat split; try reflexivity; try discriminate; try congruence;
    try (intros Hin;
         repeat (destruct Hin as [Hin|Hin]; [discriminate Hin|]);
         destruct Hin).
Qed.

Section BackendMore.
Context `{StringsPkg}.

(** X10. [installDependencies] chooses npm only if npm is on the search
    path, and bun only if bun is on it or has just been installed in
    automatic mode; the only command it runs before its goroutines is the
    installation of bun, in automatic mode without bun. *)
Theorem installDependencies_backend (w : world)
    (projectName language mode : string) (strictMode : bool)
    (acts : list action) (b : batch) :
  installDependencies projectName language mode strictMode w = (acts, Value b) ->
  (useBun b = false -> onPath w "npm" = true) /\
  (useBun b = true ->
     onPath w "bun" = true \/
     (mode <> "b" /\ mode <> "n" /\ errNil (runs w installBun_cmd) = true)) /\
  (forall c, In (Run c) acts ->
     c = installBun_cmd /\ mode <> "b" /\ mode <> "n" /\
     onPath w "bun" = false).
Proof.
  unfold installDependencies, bind, ioReadFile.
  destruct (readFile w (Join projectName ".config")) as [data|];
    [|discriminate].
  destruct (parseConfig _ _ _ _ _) as [ds dds].
  unfold selectBackend, installBun, requireNpm, bind, lookPath, runCmd,
    print, osRemove, ret, returnNow.
  (destruct (String.eqb mode "b") eqn:Hb;
     [apply String.eqb_eq in Hb; subst mode; simpl|
      destruct (String.eqb mode "n") eqn:Hn;
      [apply String.eqb_eq in Hn; subst mode; simpl|
       apply String.eqb_neq in Hb; apply String.eqb_neq in Hn]]);
    destruct (onPath w "bun") eqn:Hbun;
    destruct (errNil (runs w installBun_cmd)) eqn:Hprov;
    destruct (onPath w "npm") eqn:Hnpm;
    destruct (0 <? length ds); destruct (0 <? length dds); simpl;
    intros Heq; try discriminate Heq; injection Heq as <- <-; simpl;
    (split; [|split]); try discriminate; auto;
    try (intros c Hin;
         repeat (destruct Hin as [Hin|Hin];
                 [try discriminate Hin; injection Hin as <-; auto|]);
         destruct Hin).
Qed.

(** X11. A [.config] that can be read is removed right after, once, and
    before the backend is chosen: it is gone even when the function then
    returns because neither tool is there. *)
Theorem config_file_removed (w : world)
    (projectName language mode data : string) (strictMode : bool) :
  let path := Join projectName ".config" in
  let acts := fst (installDependencies projectName language mode strictMode w) in
  readFile w path = Some data ->
  (exists rest, acts = ReadFile path :: Remove path :: rest /\
                ~ In (Remove path) rest /\ ~ In (ReadFile path) rest) /\
  (onPath w "bun" = false -> onPath w "npm" = false ->
   errNil (runs w installBun_cmd) = false ->
   snd (installDependencies projectName language mode strictMode w) = Return).
Proof.
  intros path acts Hread. subst path acts.
  unfold installDependencies, bind, ioReadFile. rewrite Hread.
  destruct (parseConfig _ _ _ _ _) as [ds dds].
  unfold selectBackend, installBun, requireNpm, bind, lookPath, runCmd,
    print, osRemove, ret, returnNow.
  destruct (String.eqb mode "b"), (String.eqb mode "n"),
    (onPath w "bun"), (errNil (runs w installBun_cmd)), (onPath w "npm"),
    (0 <? length ds), (0 <? length dds); simpl;
    (split; [eexists; split; [reflexivity|];
             split; intros Hin;
             repeat (destruct Hin as [Hin|Hin]; [discriminate Hin|]);
             destruct Hin
            |intros; try reflexivity; discriminate]).
Qed.

End BackendMore.

Section BackendAgree.
Context `{StringsPkg}.

(** X12. The two entry points choose the same backend whenever bun is
    installed or a mode is forced. *)
Theorem backend_selection_agrees (w : world)
    (packages : list string) (projectName language mode : string)
    (strictMode : bool) (acts1 acts2 : list action) (b1 b2 : batch) :
  onPath w "bun" = true \/ mode = "b" \/ mode = "n" ->
  InstallPackages packages mode w = (acts1, Value b1) ->
  installDependencies projectName language mode strictMode w = (acts2, Value b2) ->
  useBun b1 = useBun b2.
Proof.
  intros Hcase.
  unfold InstallPackages, installDependencies, bind, ioReadFile.
  destruct (readFile w (Join projectName ".config")) as [data|];
    [|discriminate].
  destruct (parseConfig _ _ _ _ _) as [ds dds].
  unfold selectBackend, installBun, requireNpm, bind, print, stat, lookPath,
    runCmd, osRemove, ret, returnNow.
  destruct (osStat w "package.json");
    (destruct (String.eqb mode "b") eqn:Hb;
     [|destruct (String.eqb mode "n") eqn:Hn]);
    destruct (onPath w "bun") eqn:Hbun;
    destruct (errNil (runs w installBun_cmd));
    destruct (onPath w "npm");
    destruct (0 <? length ds); destruct (0 <? length dds); simpl;
    intros H1 H2; try discriminate H1; try discriminate H2;
    injection H1 as _ <-; injection H2 as _ <-; try reflexivity;
    apply String.eqb_neq in Hb; apply String.eqb_neq in Hn;
    destruct Hcase as [?|[?|?]]; congruence.
Qed.

End BackendAgree.

(** ** The command line *)

Lemma prefix_empty (s : string) : String.prefix "" s = true.
Proof. now destruct s. Qed.

Lemma prefix_append (p s x : string) :
  String.prefix p s = true -> String.prefix p (String.append s x) = true.
Proof.
  revert s. induction p as [|a p IH]; intros s Hp.
  - apply prefix_empty.
  - destruct s as [|c s]; [discriminate|].
    simpl String.append. rewrite prefix_String in *.
    apply andb_true_iff in Hp. destruct Hp as [-> Hp]. simpl. now apply IH.
Qed.

Lemma Contains_cons (c : ascii) (s : string) (sep : ascii) :
  Contains (String c s) (String sep "") =
  Ascii.eqb sep c || Contains s (String sep "").
Proof.
  cbn [Contains]. now rewrite prefix_String, prefix_empty, andb_true_r.
Qed.

Lemma Contains_empty (sep : ascii) : Contains "" (String sep "") = false.
Proof. reflexivity. Qed.

Lemma cutAt_append (flag value : string) (sep : ascii) :
  Contains flag (String sep "") = false ->
  cutAt (String.append flag (String sep value)) sep = Some (flag, value).
Proof.
  induction flag as [|c flag IH]; intros Hno.
  - simpl. now rewrite Ascii.eqb_refl.
  - rewrite Contains_cons in Hno. apply orb_false_iff in Hno.
    destruct Hno as [Hc Hno]. simpl.
    rewrite Ascii.eqb_sym, Hc. now rewrite (IH Hno).
Qed.

Lemma Contains_append (flag value : string) (sep : ascii) :
  Contains (String.append flag (String sep value)) (String sep "") = true.
Proof.
  induction flag as [|c flag IH].
  - simpl String.append. now rewrite Contains_cons, Ascii.eqb_refl.
  - simpl String.append. rewrite Contains_cons, IH. apply orb_true_r.
Qed.

(** X13. [--flag=value] and [--flag value] are read alike, for a value
    that does not start with "--". *)
Theorem parseInitFlags_equals_form (flags : InitFlags.t)
    (flag value : string) (rest : list string) :
  HasPrefix flag "--" = true ->
  Contains flag "=" = false ->
  HasPrefix value "--" = false ->
  parseInitFlagsFrom flags (String.append flag (String "=" value) :: rest) =
  parseInitFlagsFrom flags (flag :: value :: rest).
Proof.
  intros Hflag Hno Hvalue.
  cbn [parseInitFlagsFrom].
  unfold HasPrefix in *.
  rewrite (prefix_append _ _ _ Hflag), Hflag, Hvalue. cbn [negb].
  rewrite Contains_append, Hno.
  unfold SplitN2. rewrite (cutAt_append _ _ _ Hno). reflexivity.
Qed.

(** X14. Arguments of which none starts with "--" leave the flags as
    they are. *)
Theorem parseInitFlags_no_flag (flags : InitFlags.t) (args : list string) :
  Forall (fun arg => isFlag arg = false) args ->
  parseInitFlagsFrom flags args = flags.
Proof.
  induction 1 as [|arg args Harg _ IH]; [reflexivity|].
  cbn [parseInitFlagsFrom]. unfold isFlag in Harg. now rewrite Harg.
Qed.

Lemma parseInstallArgs_packages (acc : list string) (mode : string)
    (pkgs rest : list string) :
  Forall (fun arg => isFlag arg = false) pkgs ->
  parseInstallArgsFrom acc mode (pkgs ++ rest) =
  parseInstallArgsFrom (acc ++ pkgs) mode rest.
Proof.
  intros Hp. revert acc.
  induction Hp as [|arg pkgs Harg _ IH]; intros acc.
  - now rewrite app_nil_r.
  - cbn [app parseInstallArgsFrom]. unfold isFlag in Harg. rewrite Harg.
    rewrite IH, <- app_assoc. reflexivity.
Qed.

(** X15. Package names alone come back unchanged with an empty mode; a
    mode at the end may be spelled [--mode m] or [--mode=m]. *)
Theorem parseInstallArgs_mode (pkgs : list string) (m : string) :
  Forall (fun arg => isFlag arg = false) pkgs ->
  parseInstallArgs pkgs = (pkgs, "") /\
  parseInstallArgs (pkgs ++ ["--mode"; m]) = (pkgs, m) /\
  parseInstallArgs (pkgs ++ [String.append "--mode=" m]) = (pkgs, m).
Proof.
  intros Hp. unfold parseInstallArgs. split; [|split].
  - rewrite <- (app_nil_r pkgs) at 1.
    now rewrite (parseInstallArgs_packages [] "" pkgs [] Hp).
  - now rewrite (parseInstallArgs_packages [] "" pkgs _ Hp).
  - rewrite (parseInstallArgs_packages [] "" pkgs _ Hp).
    cbn [app parseInstallArgsFrom].
    assert (Hpre : HasPrefix (String.append "--mode=" m) "--" = true)
      by (unfold HasPrefix; apply prefix_append; reflexivity).
    assert (Hmode : HasPrefix (String.append "--mode=" m) "--mode=" = true)
      by (unfold HasPrefix; simpl String.append;
          rewrite !prefix_String, prefix_empty; reflexivity).
    rewrite Hpre, Hmode, orb_true_r.
    change (String.append "--mode=" m)
      with (String.append "--mode" (String "=" m)).
    rewrite Contains_append. unfold SplitN2.
    rewrite cutAt_append by reflexivity. reflexivity.
Qed.

(** The packages are arguments that are no flags, in their order. *)
Lemma parseInstallArgs_sublist_n (n : nat) :
  forall (args acc : list string) (mode : string),
    length args <= n ->
    exists pkgs,
      fst (parseInstallArgsFrom acc mode args) = acc ++ pkgs /\
      sublist pkgs (List.filter (fun arg => negb (isFlag arg)) args).
Proof.
  induction n as [|n IH]; intros args acc mode Hlen.
  - destruct args; [|simpl in Hlen; lia].
    exists []. simpl. rewrite app_nil_r. split; [reflexivity|constructor].
  - destruct args as [|arg rest].
    { exists []. simpl. rewrite app_nil_r. split; [reflexivity|constructor]. }
    simpl in Hlen. cbn [parseInstallArgsFrom List.filter]. unfold isFlag.
    destruct (HasPrefix arg "--") eqn:Harg; cbn [negb].
    + destruct (String.eqb arg "--mode" || HasPrefix arg "--mode=");
        [destruct (Contains arg "=")|];
        try (apply IH; lia).
      destruct rest as [|next rest']; [apply IH; simpl; lia|].
      destruct (IH rest' acc next) as (pkgs & Heq & Hsub);
        [simpl in Hlen; lia|].
      exists pkgs. split; [exact Heq|].
      cbn [List.filter]. destruct (negb (HasPrefix next "--")); [|exact Hsub].
      now apply sublist_cons.
    + destruct (IH rest (acc ++ [arg]) mode) as (pkgs & Heq & Hsub); [lia|].
      exists (arg :: pkgs). split.
      * rewrite Heq, <- app_assoc. reflexivity.
      * now apply sublist_skip.
Qed.

(** X16. The packages returned are arguments that do not start with
    "--", in the order of the command line. *)
Theorem parseInstallArgs_sublist (args : list string) :
  sublist (fst (parseInstallArgs args))
          (List.filter (fun arg => negb (isFlag arg)) args).
Proof.
  destruct (parseInstallArgs_sublist_n (length args) args [] "" (le_n _))
    as (pkgs & Heq & Hsub).
  unfold parseInstallArgs. now rewrite Heq.
Qed.

(** X17. [Run] calls [InstallPackages] for the command "install" only,
    with the packages and the mode read from the other arguments; there
    is at least one package and none starts with "--". *)
Theorem Run_install (version : string) (args packages : list string)
    (mode : string) :
  In (CallInstallPackages packages mode) (CLITool.Run version args) ->
  packages <> [] /\
  Forall (fun p => isFlag p = false /\ In p args) packages /\
  exists rest, args = "install" :: rest /\
               parseInstallArgs rest = (packages, mode).
Proof.
  unfold CLITool.Run. destruct args as [|command rest]; simpl.
  { intros [Hc|[]]. discriminate. }
  destruct (String.eqb command "init"); [intros [Hc|[]]; discriminate|].
  destruct (String.eqb command "start"); [intros [Hc|[]]; discriminate|].
  destruct (String.eqb command "install") eqn:Hcmd.
  - apply String.eqb_eq in Hcmd. subst command.
    destruct rest as [|a rest]; simpl.
    { intros [Hc|[Hc|[]]]; discriminate. }
    assert (Hsub : sublist (fst (parseInstallArgs (a :: rest)))
                     (List.filter (fun arg => negb (isFlag arg)) (a :: rest))).
    { destruct (parseInstallArgs_sublist_n (length (a :: rest)) (a :: rest)
                  [] "" (le_n _)) as (pkgs0 & Heq & Hsub0).
      unfold parseInstallArgs. now rewrite Heq. }
    destruct (parseInstallArgs (a :: rest)) as [pkgs m] eqn:Hparse.
    destruct pkgs as [|p pkgs]; simpl.
    { intros [Hc|[]]. discriminate. }
    intros [Hc|[]]. injection Hc as <- <-.
    split; [discriminate|]. split; [|eauto].
    cbn [fst] in Hsub. rewrite List.Forall_forall. intros x Hx.
    apply list_elem_of_In in Hx.
    pose proof (elem_of_sublist _ _ x Hx Hsub) as Hin.
    apply list_elem_of_In in Hin. apply filter_In in Hin.
    destruct Hin as [Hin Hnot]. split; [|right; exact Hin].
    now apply negb_true_iff in Hnot.
  - destruct (_ || _); [intros [Hc|[]]; discriminate|].
    destruct (_ || _); [intros [Hc|[]]; discriminate|].
    intros [Hc|[Hc|[]]]; discriminate.
Qed.

(** ** The platform *)

(** X18. Whatever the platform, [GetPlatformInfo] answers one of three
    systems, one of three architectures and one of six binary names; the
    name is that of the system answered, and of amd64 when amd64 is
    answered. *)
Theorem GetPlatformInfo_published (goos goarch : string) :
  let '(os, arch, binaryName) := GetPlatformInfo goos goarch in
  In os ["darwin"; "linux"; "windows"] /\
  In arch ["amd64"; "arm64"; "arm"] /\
  In binaryName ["xypcli-darwin-amd64"; "xypcli-darwin-arm64";
                 "xypcli-linux-amd64"; "xypcli-linux-arm64";
                 "xypcli-windows-amd64.exe"; "xypcli-windows-arm.exe"] /\
  HasPrefix binaryName (String.append "xypcli-" (String.append os "-")) = true /\
  (arch = "amd64" ->
   HasPrefix binaryName
     (String.append "xypcli-" (String.append os "-amd64")) = true).
Proof.
  unfold GetPlatformInfo.
  destruct (String.eqb goarch "amd64"), (String.eqb goarch "arm64"),
    (String.eqb goarch "arm"), (String.eqb goos "darwin"),
    (String.eqb goos "linux"), (String.eqb goos "windows");
    simpl; repeat split; auto 10; try discriminate.
Qed.

(** ** The development server *)

(** X19. [StartServer] runs nothing without [package.json] or
    [src/server.ts]; else [npm install] first when [node_modules] is
    missing, and [npm run dev] unless that installation failed. *)
Theorem StartServer_commands (w : serverWorld) :
  serverCommands (StartServer w) =
    if notExist (serverStat w "package.json") ||
       notExist (serverStat w "src/server.ts") then []
    else if notExist (serverStat w "node_modules") then
      if serverRuns w ["npm"; "install"]
      then [["npm"; "install"]; ["npm"; "run"; "dev"]]
      else [["npm"; "install"]]
    else [["npm"; "run"; "dev"]].
Proof.
  unfold StartServer.
  destruct (notExist (serverStat w "package.json")),
    (notExist (serverStat w "src/server.ts")),
    (notExist (serverStat w "node_modules")),
    (serverRuns w ["npm"; "install"]),
    (serverRuns w ["npm"; "run"; "dev"]); reflexivity.
Qed.

(** ** The template archive *)

Lemma substring_all (s : string) : String.substring 0 (String.length s) s = s.
Proof. induction s as [|c s IH]; simpl; [reflexivity|now rewrite IH]. Qed.

Lemma prefix_append_self (p f : string) :
  String.prefix p (String.append p f) = true.
Proof.
  induction p as [|c p IH]; simpl String.append; [apply prefix_empty|].
  now rewrite prefix_String, Ascii.eqb_refl.
Qed.

Lemma length_append (p f : string) :
  String.length (String.append p f) = String.length p + String.length f.
Proof. induction p as [|c p IH]; simpl; [reflexivity|now rewrite IH]. Qed.

Lemma TrimPrefix_append (p f : string) : TrimPrefix (String.append p f) p = f.
Proof.
  unfold TrimPrefix, HasPrefix. rewrite prefix_append_self, length_append.
  replace (String.length p + String.length f - String.length p)
    with (String.length f) by lia.
  induction p as [|c p IH]; simpl; [apply substring_all|exact IH].
Qed.

Lemma prefix_split (p s : string) :
  String.prefix p s = true -> s = String.append p (TrimPrefix s p).
Proof.
  intros Hp. unfold TrimPrefix, HasPrefix. rewrite Hp.
  revert s Hp. induction p as [|c p IH]; intros s Hp.
  - simpl. rewrite Nat.sub_0_r. now rewrite substring_all.
  - destruct s as [|c' s]; [discriminate|].
    rewrite prefix_String in Hp. apply andb_true_iff in Hp.
    destruct Hp as [Hc Hp]. apply Ascii.eqb_eq in Hc. subst c'.
    simpl. f_equal. exact (IH s Hp).
Qed.

Lemma prefix_longer (p : string) (c : ascii) :
  String.prefix (String.append p (String c "")) p = false.
Proof.
  induction p as [|a p IH]; simpl String.append; [reflexivity|].
  now rewrite prefix_String, Ascii.eqb_refl.
Qed.

Lemma append_assoc (a b c : string) :
  String.append (String.append a b) c = String.append a (String.append b c).
Proof. induction a as [|x a IH]; simpl; [reflexivity|now rewrite IH]. Qed.

(** X20. An entry is extracted only under a name that is not empty and
    not in [_sys], and the entry is that name inside the directory of the
    language, or the directory of the language itself named without a
    slash. *)
Theorem templateFileName_sound (templateDir name fileName : string) :
  templateFileName templateDir name = Some fileName ->
  fileName <> "" /\ fileName <> "_sys" /\ HasPrefix fileName "_sys/" = false /\
  (name = String.append templateDir (String.append "/" fileName) \/
   (name = templateDir /\ fileName = templateDir)).
Proof.
  unfold templateFileName.
  destruct (HasPrefix name (String.append templateDir "/")) eqn:Hpre;
    [|destruct (String.eqb name templateDir) eqn:Hname; [|discriminate]];
    simpl.
  - destruct (String.eqb (TrimPrefix name _) "") eqn:E1; [discriminate|].
    destruct (HasPrefix (TrimPrefix name _) "_sys/") eqn:E2; [discriminate|].
    destruct (String.eqb (TrimPrefix name _) "_sys") eqn:E3; [discriminate|].
    simpl. intros Heq. injection Heq as <-.
    apply String.eqb_neq in E1. apply String.eqb_neq in E3.
    repeat split; try assumption.
    left. rewrite (prefix_split _ _ Hpre) at 1. now rewrite append_assoc.
  - apply String.eqb_eq in Hname. subst name.
    unfold TrimPrefix. rewrite Hpre.
    destruct (String.eqb templateDir "") eqn:E1; [discriminate|].
    destruct (HasPrefix templateDir "_sys/") eqn:E2; [discriminate|].
    destruct (String.eqb templateDir "_sys") eqn:E3; [discriminate|].
    simpl. intros Heq. injection Heq as <-.
    apply String.eqb_neq in E1. apply String.eqb_neq in E3.
    repeat split; try assumption. now right.
Qed.

(** X21. Every entry inside the directory of the language, [_sys]
    apart, is extracted under its name relative to that directory. *)
Theorem templateFileName_inside (templateDir fileName : string) :
  fileName <> "" -> fileName <> "_sys" -> HasPrefix fileName "_sys/" = false ->
  templateFileName templateDir
    (String.append templateDir (String.append "/" fileName)) = Some fileName.
Proof.
  intros H1 H2 H3. unfold templateFileName.
  rewrite <- append_assoc. unfold HasPrefix at 1.
  rewrite prefix_append_self. simpl. rewrite TrimPrefix_append.
  apply String.eqb_neq in H1. apply String.eqb_neq in H2.
  now rewrite H1, H2, H3.
Qed.

Section ExtractFacts.
Variable joinPath : string -> string -> string.
Variable dirOf : string -> string.
Variable env : extractEnv.

(** X22. The files created are a beginning of the files to write, in
    the order of the archive.  Without error all of them are created and
    written in full; with an error, all but the last one created are. *)
Theorem extractFiles_created (projectName templateDir : string)
    (files : list zipFile) :
  let (ops, err) := extractFiles joinPath dirOf env projectName templateDir files in
  (exists later, toWrite joinPath projectName templateDir files =
                 created ops ++ later) /\
  (err = None ->
   created ops = toWrite joinPath projectName templateDir files /\
   copied ops = toWrite joinPath projectName templateDir files) /\
  (forall e, err = Some e ->
     exists path, last (created ops) = Some path /\
                  copied ops ++ [path] = created ops).
Proof.
  induction files as [|file rest IH]; simpl.
  - repeat split; try discriminate. now exists [].
  - destruct (extractFiles joinPath dirOf env projectName templateDir rest)
      as [ops err].
    destruct IH as ((later & Hlater) & Hok & Herr).
    unfold toWrite in *. simpl.
    destruct (templateFileName templateDir (zipName file)) as [fileName|].
    2:{ destruct (zipIsDir file); simpl;
          (split; [exists later; exact Hlater|split; assumption]). }
    destruct (zipIsDir file); simpl.
    { split; [exists later; exact Hlater|split; assumption]. }
    destruct (createFails env (joinPath projectName fileName)); simpl.
    { split; [eexists; reflexivity|].
      split; [discriminate|]. intros e _. eexists. split; reflexivity. }
    destruct (openFails env (zipName file)); simpl.
    { split; [eexists; reflexivity|].
      split; [discriminate|]. intros e _. eexists. split; reflexivity. }
    destruct (copyFails env (zipName file)); simpl.
    { split; [eexists; reflexivity|].
      split; [discriminate|]. intros e _. eexists. split; reflexivity. }
    split; [exists later; now rewrite Hlater|]. split.
    + intros Hnone. destruct (Hok Hnone) as [-> ->]. auto.
    + intros e He. destruct (Herr e He) as (path & Hlast & Hcopied).
      exists path. split.
      * destruct (created ops); [discriminate|exact Hlast].
      * simpl. now rewrite Hcopied.
Qed.

End ExtractFacts.

(** ** The project configuration *)

Section ConfigFacts2.
Context `{StringsPkg}.
Variable fsState : Type.
Variable dirStat : fsState -> string -> statResult.
Variable readDir : fsState -> string -> option nat.
Variable removeAll : fsState -> string -> fsState * bool.
Variable freshReader : list string -> list string.

Local Abbreviation session := (session fsState).
Local Abbreviation handleDirectory :=
  (handleExistingDirectory fsState dirStat readDir removeAll).
Local Abbreviation getConfig :=
  (GetProjectConfig fsState dirStat readDir removeAll freshReader).

Lemma nonEmpty_neq (x : string) : nonEmpty x = true -> x <> "".
Proof.
  unfold nonEmpty. intros Hx ->. discriminate.
Qed.

Lemma ask_nonEmpty (flag : string) (q : configMessage) (default : string)
    (s : session) :
  default <> "" -> fst (ask flag q default s) <> "".
Proof.
  intros Hd. unfold ask.
  destruct (nonEmpty flag) eqn:Hf; [now apply nonEmpty_neq|].
  destruct (ReadString (say q s)) as [answer s1]. simpl.
  destruct (nonEmpty (TrimSpace answer)) eqn:Ha; [now apply nonEmpty_neq|].
  exact Hd.
Qed.

Lemma jsOrTs_cases (language : string) :
  jsOrTs language = "js" \/ jsOrTs language = "ts".
Proof.
  unfold jsOrTs.
  destruct (String.eqb language "js") eqn:Hjs;
    destruct (String.eqb language "ts") eqn:Hts; simpl; auto.
  - apply String.eqb_eq in Hjs. auto.
  - apply String.eqb_eq in Hjs. auto.
  - apply String.eqb_eq in Hts. auto.
Qed.

Lemma validPort_range (text : string) (port : Z) :
  validPort text = Some port -> (0 < port < 65536)%Z.
Proof.
  unfold validPort. destruct (Atoi text) as [p|]; [|discriminate].
  destruct ((0 <? p) && (p <? 65536))%Z eqn:Hr; [|discriminate].
  intros Heq. injection Heq as <-.
  apply andb_true_iff in Hr. destruct Hr as [H1 H2].
  apply Z.ltb_lt in H1. apply Z.ltb_lt in H2. lia.
Qed.

Lemma configureRest_wellFormed (flags : InitFlags.t) (name : string)
    (s : session) :
  name <> "" -> wellFormed (fst (configureRest flags name s)).
Proof.
  intros Hname. unfold configureRest.
  pose proof (ask_nonEmpty (InitFlags.Description flags) AskDescription
                "A XyPriss application" s) as Hdesc.
  destruct (ask (InitFlags.Description flags) AskDescription _ s)
    as [description s1].
  set (lang := if nonEmpty (InitFlags.Language flags) then _ else _).
  assert (Hlang : fst lang = "js" \/ fst lang = "ts").
  { subst lang. destruct (nonEmpty (InitFlags.Language flags)); simpl.
    - apply jsOrTs_cases.
    - destruct (ReadString (say AskLanguage s1)). simpl.
      apply jsOrTs_cases. }
  destruct lang as [language s2].
  set (prt := if nonEmpty (InitFlags.Port flags) then _ else _).
  assert (Hport : (0 < fst prt < 65536)%Z).
  { subst prt. destruct (nonEmpty (InitFlags.Port flags)).
    - destruct (validPort (InitFlags.Port flags)) eqn:Hv; simpl; [|lia].
      now apply validPort_range in Hv.
    - destruct (ReadString (say AskPort s2)) as [p s3].
      destruct (nonEmpty (TrimSpace p)); simpl; [|lia].
      destruct (validPort (TrimSpace p)) eqn:Hv; simpl; [|lia].
      now apply validPort_range in Hv. }
  destruct prt as [port s3].
  pose proof (ask_nonEmpty (InitFlags.Version flags) AskVersion "1.0.0" s3)
    as Hver.
  destruct (ask (InitFlags.Version flags) AskVersion _ s3)
    as [version s4].
  pose proof (ask_nonEmpty (InitFlags.Alias flags) AskAlias "XyP" s4)
    as Halias.
  destruct (ask (InitFlags.Alias flags) AskAlias _ s4) as [alias s5].
  pose proof (ask_nonEmpty (InitFlags.Author flags) AskAuthor "Nehonix" s5)
    as Hauthor.
  destruct (ask (InitFlags.Author flags) AskAuthor _ s5)
    as [author s6].
  simpl in *. unfold wellFormed. simpl.
  repeat split; auto; try (apply Hdesc || apply Hver || apply Halias ||
                           apply Hauthor); try discriminate; try lia.
Qed.


(** X24. At the end of the standard input [handleExistingDirectory]
    never returns for a directory that is not empty: whatever the bound,
    it is reached. *)
Theorem handleExistingDirectory_end_of_input (fuel : nat) (dirName : string)
    (s : session) (n : nat) :
  TrimSpace "" = "" ->
  stdin s = [] ->
  notExist (dirStat (files s) dirName) = false ->
  readDir (files s) dirName = Some (S n) ->
  handleDirectory fuel dirName s = None.
Proof.
  intros Htrim. revert s.
  induction fuel as [|fuel IH]; intros s Hin Hstat Hdir; simpl;
    [reflexivity|].
  rewrite Hstat, Hdir. simpl.
  unfold ReadString. simpl. rewrite Hin. rewrite Htrim. simpl.
  apply IH; simpl; assumption.
Qed.

(** X25. [handleExistingDirectory] changes nothing on the file system
    unless "1" is answered. *)
Theorem handleExistingDirectory_keeps (fuel : nat) (dirName : string)
    (s s' : session) (proceed : bool) :
  TrimSpace "" <> "1" ->
  Forall (fun line => TrimSpace line <> "1") (stdin s) ->
  handleDirectory fuel dirName s = Some (proceed, s') ->
  files s' = files s.
Proof.
  intros Hend. revert s.
  induction fuel as [|fuel IH]; intros s Hin; simpl; [discriminate|].
  destruct (notExist (dirStat (files s) dirName)).
  { intros Heq. now injection Heq as _ <-. }
  destruct (readDir (files s) dirName) as [[|n]|]; simpl.
  - intros Heq. now injection Heq as _ <-.
  - unfold ReadString. simpl.
    destruct (stdin s) as [|line rest] eqn:Hstdin; simpl.
    + destruct (String.eqb (TrimSpace "") "1") eqn:E1.
      { apply String.eqb_eq in E1. contradiction. }
      destruct (String.eqb (TrimSpace "") "2").
      { intros Heq. now injection Heq as _ <-. }
      intros Heq. apply IH in Heq; simpl in *; [assumption|].
      rewrite Hstdin. constructor.
    + inversion Hin as [|? ? Hline Hrest]; subst.
      destruct (String.eqb (TrimSpace line) "1") eqn:E1.
      { apply String.eqb_eq in E1. contradiction. }
      destruct (String.eqb (TrimSpace line) "2").
      { intros Heq. now injection Heq as _ <-. }
      intros Heq. apply IH in Heq; simpl in *; assumption.
  - intros Heq. now injection Heq as _ <-.
Qed.


End ConfigFacts2.

#[local] Existing Instance asciiStrings.

(** Four of five goroutines have their permit and their subprocess in
    flight; the fifth waits for a permit. *)
Lemma permit_pool_bound_witness :
  let s := stateAfter fivePackages allSucceed
             [Acquire 0; Acquire 1; Acquire 2; Acquire 3;
              Start 0; Start 1; Start 2; Start 3] in
  reachable fivePackages allSucceed s /\
  count installing (goroutines s) = 4 /\
  step fivePackages allSucceed (Acquire 4) s = None /\
  semaphore s <= Nat.min 4 (totalDeps fivePackages).
Proof.
  intros s.
  pose proof (stateAfter_reachable fivePackages allSucceed
                [Acquire 0; Acquire 1; Acquire 2; Acquire 3;
                 Start 0; Start 1; Start 2; Start 3]) as Hreach.
  split; [exact Hreach|]. split; [reflexivity|]. split; [reflexivity|].
  exact (proj1 (proj2 (proj2 (proj2
           (permit_pool_bound fivePackages allSucceed s Hreach))))).
Defined.

(** C1. [InstallPackages] with mode "b", bun being installed, and
    "nquickdev" listed twice: both goroutines run [npm install nquickdev],
    and after they have taken their permits and started their
    subprocesses two npm subprocesses are in flight at once: the mutex is
    not taken, its guard being [!useBun].  On npm the same schedule stops
    at the second [Start]. *)
Theorem nquickdev_npm_not_serialized :
  let s := stateAfter twoNquickdev allSucceed
             [Acquire 0; Acquire 1; Start 0; Start 1] in
  snd (InstallPackages ["nquickdev"; "nquickdev"] "b"
         (someWorld true true succeeds)) = Value twoNquickdev /\
  run twoNquickdev allSucceed [Acquire 0; Acquire 1; Start 0; Start 1]
      (init twoNquickdev) = Some s /\
  reachable twoNquickdev allSucceed s /\
  map (fun g => argv (taskCmd twoNquickdev (args g))) (goroutines s) =
    [["npm"; "install"; "nquickdev"]; ["npm"; "install"; "nquickdev"]] /\
  map at_ (goroutines s) = [InRun; InRun] /\
  toolInFlight twoNquickdev "npm" s = 2 /\
  npmMutex s = false /\
  run twoOnNpm allSucceed [Acquire 0; Acquire 1; Start 0; Start 1]
      (init twoOnNpm) = None.
Proof.
  intros s. split; [reflexivity|]. split; [reflexivity|].
  split; [apply stateAfter_reachable|].
  repeat split; reflexivity.
Qed.

(** On the fast backend bun subprocesses do overlap. *)
Example bun_backend_parallel :
  toolInFlight fivePackages "bun"
    (stateAfter fivePackages allSucceed
       [Acquire 0; Acquire 1; Acquire 2; Acquire 3;
        Start 0; Start 1; Start 2; Start 3]) = 4.
Proof. reflexivity. Qed.

(** The development dependency of [strictBatch] fails while the other
    subprocess is still in flight. *)
Lemma strict_first_failure_exits_witness :
  let s := stateAfter strictBatch (failsAt 1)
             [Acquire 0; Acquire 1; Start 0; Start 1;
              Wait 1; Unlock 1; Send 1] in
  reachable strictBatch (failsAt 1) s /\
  main s = Collecting 0 [] /\
  results s = [ {| packageName := "typescript"; success := false;
                   isDev := true; index := 0 |} ] /\
  exists s',
    step strictBatch (failsAt 1) Receive s = Some s' /\
    main s' = Exited 1 /\
    output s' = output s ++
      [MsgStrictModeFailure; MsgFailedPackage "typescript (dev)"] /\
    map at_ (goroutines s') = [InRun; AtRelease false].
Proof.
  intros s.
  destruct (strict_first_failure_exits strictBatch (failsAt 1) s
              {| packageName := "typescript"; success := false;
                 isDev := true; index := 0 |} [] 0 [])
    as [(s' & Hstep & _ & _ & Hgs & _ & Hexit & Hout & _) _];
    try reflexivity.
  { apply stateAfter_reachable. }
  split; [apply stateAfter_reachable|].
  split; [reflexivity|]. split; [reflexivity|].
  exists s'. repeat split; try assumption. now rewrite Hgs.
Defined.

(** A batch without strict mode, one subprocess failing. *)
Lemma non_strict_report_witness :
  strict bunBatch = false /\
  exists es s' failedDeps,
    run bunBatch (failsAt 2) es (init bunBatch) = Some s' /\
    main s' = Summarized failedDeps.
Proof.
  split; [reflexivity|].
  exact (proj1 (proj2 (non_strict_report bunBatch (failsAt 2) eq_refl))
           (init bunBatch) (reachable_init bunBatch (failsAt 2))).
Defined.

Example report_of_bunBatch :
  let s := stateAfter bunBatch (failsAt 2)
             [Acquire 0; Acquire 1; Acquire 2; Start 2; Start 0; Wait 2;
              Unlock 2; Send 2; Receive; Start 1; Wait 0; Wait 1; Unlock 1;
              Unlock 0; Send 1; Send 0; Receive; Release 0; Receive;
              Summary] in
  main s = Summarized ["typescript (dev)"] /\
  map packageName (received s) = ["typescript"; "nquickdev"; "xypriss"] /\
  length (received s) = 3 /\
  succeeded (received s) = 2.
Proof. repeat split; reflexivity. Qed.


(** ** The properties above on concrete inputs *)

Lemma send_never_blocks_witness :
  let s := stateAfter fivePackages allSucceed firstToSend in
  reachable fivePackages allSucceed s /\
  goroutines s !! 0 = Some {| args := firstOfFive; at_ := AtSend true |} /\
  length (results s) < totalDeps fivePackages /\
  exists s',
    step fivePackages allSucceed (Send 0) s = Some s' /\
    results s' = results s ++ [resultOf firstOfFive true].
Proof.
  intros s.
  pose proof (stateAfter_reachable fivePackages allSucceed firstToSend)
    as Hreach.
  split; [exact Hreach|]. split; [reflexivity|].
  apply (send_never_blocks fivePackages allSucceed s 0
           {| args := firstOfFive; at_ := AtSend true |} true Hreach);
    [reflexivity|reflexivity|intros code; discriminate].
Defined.

Lemma all_succeed_all_installed_witness :
  (forall i, errNil (allSucceed i) = true) /\
  exists es s',
    run strictBatch allSucceed es (init strictBatch) = Some s' /\
    main s' = Summarized [].
Proof.
  split; [reflexivity|].
  exact (proj2 (proj2 (all_succeed_all_installed strictBatch allSucceed
                         (fun _ => eq_refl) (init strictBatch)
                         (reachable_init strictBatch allSucceed)))).
Defined.

Lemma strict_summary_sound_witness :
  strict strictBatch = true /\
  exists es s',
    run strictBatch (failsAt 1) es (init strictBatch) = Some s' /\
    main s' = Exited 1.
Proof.
  split; [reflexivity|].
  apply (proj2 (strict_summary_sound strictBatch (failsAt 1) eq_refl)).
  - exists 1. split; [unfold totalDeps; simpl; lia|reflexivity].
  - constructor.
Defined.

Lemma results_conserved_witness :
  let s := stateAfter fivePackages allSucceed (firstToSend ++ [Send 0]) in
  reachable fivePackages allSucceed s /\
  Permutation (received s ++ results s) (sentResults (goroutines s)) /\
  map args (goroutines s) = tasks fivePackages /\
  length (received s) + length (results s) <= totalDeps fivePackages.
Proof.
  intros s.
  pose proof (stateAfter_reachable fivePackages allSucceed
                (firstToSend ++ [Send 0])) as Hreach.
  split; [exact Hreach|].
  exact (results_conserved fivePackages allSucceed s Hreach).
Defined.

Lemma npm_subprocesses_exclusive_witness :
  let s := stateAfter twoOnNpm allSucceed [Acquire 0; Acquire 1; Start 1] in
  useBun twoOnNpm = false /\
  reachable twoOnNpm allSucceed s /\
  npmMutex s = true /\
  toolInFlight twoOnNpm "npm" s <= 1.
Proof.
  intros s.
  pose proof (stateAfter_reachable twoOnNpm allSucceed
                [Acquire 0; Acquire 1; Start 1]) as Hreach.
  split; [reflexivity|]. split; [exact Hreach|]. split; [reflexivity|].
  exact (proj1 (proj2 (npm_subprocesses_exclusive twoOnNpm allSucceed s
                         eq_refl Hreach))).
Defined.

Lemma diagnostic_from_stderr_witness :
  stderrP5 <> "" /\
  (diagnostic stderrP5 = [] <-> trimmedLines stderrP5 = []).
Proof.
  split; [discriminate|].
  apply (diagnostic_from_stderr stderrP5). discriminate.
Defined.

Lemma parseConfig_layout_witness :
  parseConfig (configBefore ++ "Deps:" :: configDeps ++
               " DevDeps:" :: configDevDeps) false false [] [] =
  (["xypriss"; "cors"], ["typescript"]).
Proof.
  exact (parseConfig_layout configBefore configDeps configDevDeps
           "Deps:" " DevDeps:"
           ltac:(repeat constructor) ltac:(repeat constructor)
           ltac:(repeat constructor) eq_refl eq_refl).
Defined.

Lemma InstallPackages_backend_witness :
  InstallPackages ["nquickdev"; "nquickdev"] "b" (someWorld true true succeeds) =
    (fst (InstallPackages ["nquickdev"; "nquickdev"] "b"
            (someWorld true true succeeds)), Value twoNquickdev) /\
  onPath (someWorld true true succeeds) "bun" = true.
Proof.
  split; [reflexivity|].
  exact (proj1 (proj1 (proj2
           (InstallPackages_backend (someWorld true true succeeds)
              ["nquickdev"; "nquickdev"] "b" _ twoNquickdev eq_refl))
           eq_refl)).
Defined.

Lemma installDependencies_backend_witness :
  let w := someWorld false true fails in
  let b := {| projectDir := "app"; useBun := false; strict := false;
              deps := ["xypriss"]; devDeps := ["typescript"] |} in
  installDependencies "app" "ts" "" false w =
    (fst (installDependencies "app" "ts" "" false w), Value b) /\
  onPath w "npm" = true.
Proof.
  intros w b.
  assert (Hrun : installDependencies "app" "ts" "" false w =
                 (fst (installDependencies "app" "ts" "" false w), Value b))
    by (vm_compute; reflexivity).
  split; [exact Hrun|].
  exact (proj1 (installDependencies_backend w "app" "ts" "" false _ b Hrun)
           eq_refl).
Defined.

Lemma config_file_removed_witness :
  readFile (someWorld false false fails) (Join "app" ".config") =
    Some configText /\
  snd (installDependencies "app" "ts" "" true (someWorld false false fails)) =
    Return.
Proof.
  split; [reflexivity|].
  exact (proj2 (config_file_removed (someWorld false false fails)
                  "app" "ts" "" configText true eq_refl)
           eq_refl eq_refl eq_refl).
Defined.

Lemma backend_selection_agrees_witness :
  let w := someWorld true true succeeds in
  let b1 := {| projectDir := "."; useBun := false; strict := false;
               deps := ["cors"]; devDeps := [] |} in
  let b2 := {| projectDir := "app"; useBun := false; strict := false;
               deps := ["xypriss"]; devDeps := ["typescript"] |} in
  snd (InstallPackages ["cors"] "n" w) = Value b1 /\
  snd (installDependencies "app" "ts" "n" false w) = Value b2 /\
  useBun b1 = useBun b2.
Proof.
  intros w b1 b2.
  assert (H1 : InstallPackages ["cors"] "n" w =
               (fst (InstallPackages ["cors"] "n" w), Value b1))
    by (vm_compute; reflexivity).
  assert (H2 : installDependencies "app" "ts" "n" false w =
               (fst (installDependencies "app" "ts" "n" false w), Value b2))
    by (vm_compute; reflexivity).
  split; [reflexivity|]. split; [vm_compute; reflexivity|].
  exact (backend_selection_agrees w ["cors"] "app" "ts" "n" false _ _ b1 b2
           (or_intror (or_intror eq_refl)) H1 H2).
Defined.

Lemma parseInitFlags_equals_form_witness :
  parseInitFlags ["--name=shop"; "--strict"] =
  parseInitFlags ["--name"; "shop"; "--strict"].
Proof.
  exact (parseInitFlags_equals_form InitFlags.zero "--name" "shop"
           ["--strict"] eq_refl eq_refl eq_refl).
Defined.

Lemma parseInitFlags_no_flag_witness :
  parseInitFlags ["shop"; "-v"] = InitFlags.zero.
Proof.
  exact (parseInitFlags_no_flag InitFlags.zero ["shop"; "-v"]
           ltac:(repeat constructor)).
Defined.

Lemma parseInstallArgs_mode_witness :
  parseInstallArgs ["xypriss"; "cors"] = (["xypriss"; "cors"], "") /\
  parseInstallArgs (["xypriss"; "cors"] ++ ["--mode"; "b"]) =
    (["xypriss"; "cors"], "b") /\
  parseInstallArgs (["xypriss"; "cors"] ++ ["--mode=b"]) =
    (["xypriss"; "cors"], "b").
Proof.
  exact (parseInstallArgs_mode ["xypriss"; "cors"] "b"
           ltac:(repeat constructor)).
Defined.

Lemma Run_install_witness :
  In (CallInstallPackages ["xypriss"] "b")
     (CLITool.Run "1.0.2" ["install"; "xypriss"; "--mode"; "b"]) /\
  ["xypriss"] <> [] /\
  exists rest, ["install"; "xypriss"; "--mode"; "b"] = "install" :: rest /\
               parseInstallArgs rest = (["xypriss"], "b").
Proof.
  assert (Hin : In (CallInstallPackages ["xypriss"] "b")
                   (CLITool.Run "1.0.2" ["install"; "xypriss"; "--mode"; "b"]))
    by (left; reflexivity).
  split; [exact Hin|].
  destruct (Run_install "1.0.2" ["install"; "xypriss"; "--mode"; "b"]
              ["xypriss"] "b" Hin) as (Hne & _ & Hrest).
  split; assumption.
Defined.

Lemma templateFileName_sound_witness :
  templateFileName "TS" "TS/src/server.ts" = Some "src/server.ts" /\
  "src/server.ts" <> "" /\ "src/server.ts" <> "_sys" /\
  HasPrefix "src/server.ts" "_sys/" = false.
Proof.
  split; [reflexivity|].
  destruct (templateFileName_sound "TS" "TS/src/server.ts" "src/server.ts"
              eq_refl) as (H1 & H2 & H3 & _).
  repeat split; assumption.
Defined.

Lemma templateFileName_inside_witness :
  templateFileName "JS" "JS/package.json" = Some "package.json".
Proof.
  apply (templateFileName_inside "JS" "package.json");
    [discriminate|discriminate|reflexivity].
Defined.


Lemma handleExistingDirectory_end_of_input_witness :
  stdin (atTerminal [] true) = [] /\
  handleExistingDirectory bool diskStat diskReadDir diskRemoveAll 1000
    "shop" (atTerminal [] true) = None.
Proof.
  split; [reflexivity|].
  apply (handleExistingDirectory_end_of_input bool diskStat diskReadDir
           diskRemoveAll 1000 "shop" (atTerminal [] true) 1);
    reflexivity.
Defined.

Lemma handleExistingDirectory_keeps_witness :
  exists proceed s',
    handleExistingDirectory bool diskStat diskReadDir diskRemoveAll 5
      "shop" (atTerminal answers32 true) = Some (proceed, s') /\
    files s' = true.
Proof.
  destruct (handleExistingDirectory bool diskStat diskReadDir diskRemoveAll 5
              "shop" (atTerminal answers32 true))
    as [[proceed s']|] eqn:Hrun.
  - exists proceed, s'. split; [reflexivity|].
    apply (handleExistingDirectory_keeps bool diskStat diskReadDir
             diskRemoveAll 5 "shop" (atTerminal answers32 true) s' proceed).
    + discriminate.
    + repeat constructor; discriminate.
    + exact Hrun.
  - vm_compute in Hrun. discriminate Hrun.
Defined.

